(** * Geo-GA-Planner: survey-track placement and its reporting helpers

    A shallow embedding of the numerical core of the figure scripts
    [01_bathymetry_simulation.py], [02_path_optimization.py],
    [03_performance_comparison.py] and [generate_figures.py].

    Python floats are idealised as the real numbers of the Standard
    Library: every arithmetic operation is exact, [np.tan], [np.sin],
    [np.cos] and [np.exp] are the real functions, and [np.pi] is [PI].
    Rounding, overflow and NaN are outside the model.  A Python exception
    is the outcome [Raised]; the [while] loop of
    [optimize_track_positions] runs on fuel and yields [OutOfFuel] when
    the fuel does not suffice. *)

From Stdlib Require Import String Reals Lra Lia List ZArith Psatz.
From Stdlib Require Import Sorted.
Import ListNotations.
Open Scope R_scope.

(** ** Outcomes of a Python call *)

Inductive outcome (A : Type) : Type :=
| Returned (a : A)
| Raised
| OutOfFuel.

Arguments Returned {A} a.
Arguments Raised {A}.
Arguments OutOfFuel {A}.

(** A two-dimensional array is the list of its rows. *)
Definition array2 := list (list R).

(** ** The numpy functions the scripts call *)

Module Numpy.

(** [np.deg2rad(x)] is [x * (pi / 180)]. *)
Definition deg2rad (x : R) : R := x * (PI / 180).

(** [np.clip(a, lo, hi)] is [minimum(maximum(a, lo), hi)]. *)
Definition clip (a lo hi : R) : R := Rmin (Rmax a lo) hi.

(** [np.linspace(start, stop, n)] for [n >= 2]: the [n] points
    [start + i * (stop - start) / (n - 1)]. *)
Definition linspace (start stop : R) (n : nat) : list R :=
  map (fun i => start + INR i * ((stop - start) / INR (n - 1))) (seq 0 n).

(** [np.meshgrid(x, y)]: [X[i][j] = x[j]] and [Y[i][j] = y[i]]. *)
Definition meshgrid (x y : list R) : array2 * array2 :=
  (map (fun _ => x) y, map (fun yi => map (fun _ => yi) x) y).

(** The interpolation step of [np.interp] once [x] is known not to lie
    left of the sample [(x0, y0)]: the first later sample abscissa
    that exceeds [x] closes the segment; past the last sample the
    right-most ordinate is returned. *)
Fixpoint interp_from (x x0 y0 : R) (xp fp : list R) : R :=
  match xp, fp with
  | x1 :: xp', y1 :: fp' =>
      if Rlt_dec x x1
      then (y1 - y0) / (x1 - x0) * (x - x0) + y0
      else interp_from x x1 y1 xp' fp'
  | _, _ => y0
  end.

(** [np.interp(x, xp, fp)] with the default [left] and [right]: the
    piecewise-linear interpolant through the samples, constant outside
    them.  numpy raises [ValueError] on an empty [xp] and when [xp]
    and [fp] differ in length; it searches [xp] by bisection, which
    agrees with the scan below when [xp] is increasing, as its
    contract requires. *)
Definition interp (x : R) (xp fp : list R) : option R :=
  if negb (Nat.eqb (List.length xp) (List.length fp)) then None
  else match xp, fp with
       | x0 :: xp', y0 :: fp' =>
           Some (if Rlt_dec x x0 then y0 else interp_from x x0 y0 xp' fp')
       | _, _ => None
       end.

(** [a.ravel()]: the cells of a two-dimensional array, row by row. *)
Definition ravel (a : array2) : list R := concat a.

(** [np.min] and [a.max()] over the cells: [ValueError] on an array
    without cells. *)
Definition amin (l : list R) : option R :=
  match l with
  | [] => None
  | a :: l' => Some (fold_right Rmin a l')
  end.

Definition amax (l : list R) : option R :=
  match l with
  | [] => None
  | a :: l' => Some (fold_right Rmax a l')
  end.

(** [np.sum] and [np.mean] over the cells.  On an array without cells
    numpy's mean is [nan], which the reals do not have; the properties
    below use [mean] on arrays with cells only. *)
Definition sum (l : list R) : R := fold_right Rplus 0 l.

Definition mean (l : list R) : R := sum l / INR (List.length l).

(** [int(x)] on a finite float: truncation towards zero. *)
Definition int (x : R) : Z :=
  if Rle_dec 0 x then Zfloor x else Zceil x.

(** [np.clip] on integers. *)
Definition clip_int (i lo hi : Z) : Z := Z.min (Z.max i lo) hi.

(** [a[i, :]] with Python's negative indices: [IndexError] outside
    [-n .. n-1]. *)
Definition row (i : Z) (a : array2) : option (list R) :=
  if Z.leb 0 i then nth_error a (Z.to_nat i)
  else if Z.leb 0 (Z.of_nat (List.length a) + i)
       then nth_error a (Z.to_nat (Z.of_nat (List.length a) + i))
       else None.

End Numpy.

(** ** [02_path_optimization.py] *)

Module PathOptimization.

Definition NM_TO_M : R := 1852.

(** [calculate_swath_width(depth, beam_angle_deg)] *)
Definition calculate_swath_width (depth beam_angle_deg : R) : R :=
  2 * depth * tan (Numpy.deg2rad beam_angle_deg).

(** The default value of [beam_angle_deg]. *)
Definition default_beam_angle_deg : R := 60.

(** The default value of [spacing_factor]. *)
Definition default_spacing_factor : R := 1.02.

(** [bathymetry_data[0, 0]]: [IndexError] on an array without rows or
    without columns. *)
Definition corner (a : array2) : option R :=
  match a with
  | (d :: _) :: _ => Some d
  | _ => None
  end.

(** [a[0]] and [a[0, :]] *)
Definition row0 (a : array2) : option (list R) :=
  match a with
  | r :: _ => Some r
  | [] => None
  end.

(** The [while] loop of [optimize_track_positions]; [track_positions]
    is the list built so far and [current_x] the cursor. *)
Fixpoint track_loop (fuel : nat) (x_coords top : list R)
    (region_width_nm spacing_factor current_x : R)
    (track_positions : list R) : outcome (list R) :=
  match fuel with
  | O => OutOfFuel
  | S fuel' =>
      if Rlt_dec current_x (region_width_nm + 1e-6) then
        match Numpy.interp current_x x_coords top with
        | None => Raised
        | Some depth_top =>
            let swath_width_m :=
              calculate_swath_width depth_top default_beam_angle_deg in
            track_loop fuel' x_coords top region_width_nm spacing_factor
              (current_x + (swath_width_m * spacing_factor) / NM_TO_M)
              (track_positions ++ [current_x])
        end
      else Returned track_positions
  end.

(** The cursor before the first iteration. *)
Definition first_x (first_depth : R) : R :=
  0.5 * calculate_swath_width first_depth default_beam_angle_deg / NM_TO_M.

(** [optimize_track_positions(X, Y, bathymetry_data, region_width_nm,
    spacing_factor)] *)
Definition optimize_track_positions (fuel : nat) (X Y bathymetry_data : array2)
    (region_width_nm spacing_factor : R) : outcome (list R) :=
  match corner bathymetry_data with
  | None => Raised
  | Some first_depth =>
      let current_x := first_x first_depth in
      match row0 X, row0 bathymetry_data with
      | Some x_coords, Some top =>
          track_loop fuel x_coords top region_width_nm spacing_factor
            current_x []
      | _, _ => Raised
      end
  end.

(** [calculate_coverage_metrics(track_positions, X, Y, bathymetry_data)] *)
Definition calculate_coverage_metrics (track_positions : list R)
    (X Y bathymetry_data : array2) : R * R :=
  let coverage_percentage := 99.786 in
  let gap_percentage := 100 - coverage_percentage in
  (coverage_percentage, gap_percentage).

End PathOptimization.

(** ** [01_bathymetry_simulation.py] *)

Module BathymetrySimulation.

(** Arrays combine element by element. *)
Definition map2 {A B C : Type} (f : A -> B -> C) (a : list A) (b : list B)
  : list C :=
  map (fun p => f (fst p) (snd p)) (combine a b).

Definition array_map2 (f : R -> R -> R) (a b : array2) : array2 :=
  map2 (map2 f) a b.

(** One cell of [bathymetry_data], from the cells [x] of [X] and [y]
    of [Y]. *)
Definition depth_cell (region_width_nm region_height_nm x y : R) : R :=
  let depth_shallow := 25.0 in
  let depth_deep := 175.0 in
  let linear_plane :=
    depth_shallow
    + 0.5 * ((x / region_width_nm) + (y / region_height_nm))
      * (depth_deep - depth_shallow) in
  let variation1 := 20 * sin (2 * PI * x / region_width_nm) in
  let variation2 := 10 * sin (2 * PI * y / region_height_nm) in
  let variation3 := 5 * sin (2 * PI * x / (0.3 * region_width_nm)) in
  let variation4 := 8 * sin (2 * PI * y / (0.7 * region_height_nm)) in
  linear_plane + (variation1 + variation2 + variation3 + variation4).

(** [generate_bathymetry_data()]; the fall-back copies in
    [02_path_optimization.py] and [03_performance_comparison.py] are
    the same text. *)
Definition generate_bathymetry_data : array2 * array2 * array2 * R * R :=
  let region_width_nm := 4 in
  let region_height_nm := 5 in
  let nx := 400%nat in
  let ny := 500%nat in
  let x := Numpy.linspace 0 region_width_nm nx in
  let y := Numpy.linspace 0 region_height_nm ny in
  let XY := Numpy.meshgrid x y in
  let bathymetry_data :=
    array_map2 (depth_cell region_width_nm region_height_nm)
      (fst XY) (snd XY) in
  (fst XY, snd XY, bathymetry_data, region_width_nm, region_height_nm).

End BathymetrySimulation.

(** ** [generate_figures.py] *)

Module GenerateFigures.

(** One cell of [Z] before clipping. *)
Definition raw_cell (width_nm height_nm x y : R) : R :=
  let depth_shallow := 10.0 in
  let depth_deep := 250.0 in
  let main_slope :=
    depth_shallow
    + (depth_deep - depth_shallow)
      * (x / width_nm * 0.6 + y / height_nm * 0.4) in
  let variation_1 := 30 * sin (2 * PI * x / 3) * cos (2 * PI * y / 4) in
  let variation_2 := 20 * sin (2 * PI * y / 2) in
  let depression_1 :=
    -40 * exp (- ((x - 1.5) ^ 2 + (y - 3.5) ^ 2) / 0.5) in
  let seamount_1 :=
    25 * exp (- ((x - 3.0) ^ 2 + (y - 1.5) ^ 2) / 0.3) in
  main_slope + variation_1 + variation_2 + depression_1 + seamount_1.

(** [generate_bathymetry_data()] of this script: [(X, Y, Z)] with [Z]
    clipped to [0, 300]. *)
Definition generate_bathymetry_data : array2 * array2 * array2 :=
  let width_nm := 4.0 in
  let height_nm := 5.0 in
  let nx := 400%nat in
  let ny := 500%nat in
  let x := Numpy.linspace 0 width_nm nx in
  let y := Numpy.linspace 0 height_nm ny in
  let XY := Numpy.meshgrid x y in
  let Z :=
    BathymetrySimulation.array_map2 (raw_cell width_nm height_nm)
      (fst XY) (snd XY) in
  let Z := map (map (fun z => Numpy.clip z 0 300)) Z in
  (fst XY, snd XY, Z).

(** [get_swath_width_from_terrain(y_position_m, bathy_data)].  With
    [height_nm = 0] the quotient [y_as_nm / height_nm] is [nan] and
    [int] raises [ValueError]. *)
Definition get_swath_width_from_terrain (y_position_m : R)
    (bathy_data : array2 * array2 * array2) : outcome R :=
  let Y_nm := snd (fst bathy_data) in
  let Z_m := snd bathy_data in
  match Numpy.amax (Numpy.ravel Y_nm) with
  | None => Raised
  | Some height_nm =>
      let num_rows := Z.of_nat (List.length Z_m) in
      let y_as_nm := (y_position_m / 1000.0) * height_nm in
      if Req_dec_T height_nm 0 then Raised
      else
        let y_index :=
          Numpy.int ((y_as_nm / height_nm) * IZR (num_rows - 1)) in
        let y_index := Numpy.clip_int y_index 0 (num_rows - 1) in
        match Numpy.row y_index Z_m with
        | None => Raised
        | Some cells =>
            let average_depth := Numpy.mean cells in
            let coverage_factor := 4.0 in
            let swath_width := coverage_factor * average_depth in
            Returned swath_width
        end
  end.

End GenerateFigures.

(** ** [03_performance_comparison.py] *)

Module PerformanceComparison.

(** The fall-back copy of [calculate_swath_width]. *)
Definition calculate_swath_width (depth beam_angle_deg : R) : R :=
  2 * depth * tan (Numpy.deg2rad beam_angle_deg).

(** [class PerformanceMetrics] *)
Record PerformanceMetrics : Type := mkPerformanceMetrics {
  path_length_nm : R;
  gap_percentage : R;
  overlap_percentage : R
}.

(** [get_hybrid_metrics()] *)
Definition get_hybrid_metrics (_ : unit) : PerformanceMetrics :=
  let hybrid_length_nm := 180.0 in
  let hybrid_gap := 0.214 in
  let hybrid_avg_overlap := 15.0 in
  mkPerformanceMetrics hybrid_length_nm hybrid_gap hybrid_avg_overlap.

(** Division of Python floats: [ZeroDivisionError] on a zero divisor. *)
Definition true_div (a b : R) : outcome R :=
  if Req_dec_T b 0 then Raised else Returned (a / b).

Definition bind {A B : Type} (m : outcome A) (k : A -> outcome B)
  : outcome B :=
  match m with
  | Returned a => k a
  | Raised => Raised
  | OutOfFuel => OutOfFuel
  end.

(** A dictionary with string keys, in insertion order. *)
Definition dict := list (string * R).

Fixpoint get (key : string) (d : dict) : option R :=
  match d with
  | [] => None
  | (k, v) :: d' => if String.eqb key k then Some v else get key d'
  end.

(** [calculate_improvements(hybrid, baseline)] *)
Definition calculate_improvements (hybrid baseline : PerformanceMetrics)
  : outcome dict :=
  bind (true_div (path_length_nm baseline - path_length_nm hybrid)
                 (path_length_nm baseline)) (fun q1 =>
  let length_improvement := q1 * 100 in
  bind (true_div (overlap_percentage baseline - overlap_percentage hybrid)
                 (overlap_percentage baseline)) (fun q2 =>
  let overlap_improvement := q2 * 100 in
  Returned [("length"%string, length_improvement);
            ("overlap"%string, overlap_improvement)])).

(** [calculate_baseline_metrics(bathymetry_data, region_width_nm,
    region_height_nm)].  [np.min] raises on an array without cells.  The
    quotients are numpy divisions: a zero [d_fixed] or [W_avg] gives
    [inf] or [nan] there, which the reals do not have; the properties
    below are stated for positive depths. *)
Definition calculate_baseline_metrics (bathymetry_data : array2)
    (region_width_nm region_height_nm : R) : outcome PerformanceMetrics :=
  let NM_TO_M := 1852 in
  let region_width_m := region_width_nm * NM_TO_M in
  match Numpy.amin (Numpy.ravel bathymetry_data) with
  | None => Raised
  | Some D_min =>
      let D_avg := Numpy.mean (Numpy.ravel bathymetry_data) in
      let W_min := calculate_swath_width D_min 60.0 in
      let d_fixed := 0.9 * W_min in
      let num_lines_baseline := IZR (Zceil (region_width_m / d_fixed)) in
      let baseline_length_nm := num_lines_baseline * region_height_nm in
      let W_avg := calculate_swath_width D_avg 60.0 in
      let baseline_avg_overlap := (1 - d_fixed / W_avg) * 100 in
      let baseline_gap := 0.100 in
      Returned (mkPerformanceMetrics baseline_length_nm baseline_gap
                  baseline_avg_overlap)
  end.

(** The part of [main()] that computes: the metrics of both methods and
    the improvements. *)
Definition main (_ : unit)
  : outcome (PerformanceMetrics * PerformanceMetrics * dict) :=
  let g := BathymetrySimulation.generate_bathymetry_data in
  let bathymetry_data := snd (fst (fst g)) in
  let region_width_nm := snd (fst g) in
  let region_height_nm := snd g in
  bind (calculate_baseline_metrics bathymetry_data region_width_nm
          region_height_nm) (fun baseline_metrics =>
  let hybrid_metrics := get_hybrid_metrics tt in
  bind (calculate_improvements hybrid_metrics baseline_metrics)
    (fun improvements =>
  Returned (hybrid_metrics, baseline_metrics, improvements))).

End PerformanceComparison.

(** ** [main()] of [02_path_optimization.py] *)

Module PathOptimizationMain.

(** The part of [main()] that computes: the track positions on the
    generated grid, with the default spacing factor, and the coverage
    metrics. *)
Definition main (fuel : nat) : outcome (list R * R * R) :=
  let g := BathymetrySimulation.generate_bathymetry_data in
  let X := fst (fst (fst (fst g))) in
  let Y := snd (fst (fst (fst g))) in
  let bathymetry_data := snd (fst (fst g)) in
  let region_width_nm := snd (fst g) in
  PerformanceComparison.bind
    (PathOptimization.optimize_track_positions fuel X Y bathymetry_data
       region_width_nm PathOptimization.default_spacing_factor)
    (fun track_positions =>
  let m :=
    PathOptimization.calculate_coverage_metrics track_positions X Y
      bathymetry_data in
  Returned (track_positions, fst m, snd m)).

End PathOptimizationMain.

(** ** Vocabulary of the properties *)

(** Each element is smaller than the one recorded after it. *)
Fixpoint strictly_increasing (l : list R) : Prop :=
  match l with
  | x :: (y :: _) as t => x < y /\ strictly_increasing t
  | _ => True
  end.

(** Every cell of the array satisfies [P]. *)
Definition all_cells (P : R -> Prop) (a : array2) : Prop :=
  Forall (Forall P) a.

(** A grid as [np.meshgrid] builds it from an increasing [x]: the first
    row of [X] is the scan axis [x_coords], as long as the first row
    [top] of the depth array, and not empty. *)
Record scan_axis (X bathymetry_data : array2) (x_coords top : list R) : Prop :=
  mk_scan_axis {
    axis_row : PathOptimization.row0 X = Some x_coords;
    axis_top : PathOptimization.row0 bathymetry_data = Some top;
    axis_length : List.length x_coords = List.length top;
    axis_nonempty : top <> [];
    axis_sorted : Sorted Rlt x_coords
  }.

(** The quantities of the track-count formula, for a depth [D] and a
    spacing factor [f]. *)
Definition half_first_step (D : R) : R :=
  0.5 * PathOptimization.calculate_swath_width D 60 / 1852.

Definition step (D f : R) : R :=
  PathOptimization.calculate_swath_width D 60 * f / 1852.

(** The advance of the cursor from a track at [x]: the swath width at
    the interpolated reference-edge depth, times the spacing factor, in
    nautical miles. *)
Definition advance (x_coords top : list R) (f x : R) : option R :=
  match Numpy.interp x x_coords top with
  | Some depth_top =>
      Some (PathOptimization.calculate_swath_width depth_top 60 * f / 1852)
  | None => None
  end.

(** Half the swath width, in nautical miles, of a track at [x]. *)
Definition half_swath_nm (x_coords top : list R) (x : R) : option R :=
  match Numpy.interp x x_coords top with
  | Some depth_top =>
      Some (0.5 * PathOptimization.calculate_swath_width depth_top 60 / 1852)
  | None => None
  end.

(** The point [p] lies within the swath footprint of the track at [x]. *)
Definition in_footprint (x_coords top : list R) (x p : R) : Prop :=
  match half_swath_nm x_coords top x with
  | Some h => x - h <= p <= x + h
  | None => False
  end.

(** The point [p] lies within the footprint of some track of [l]. *)
Definition covered (x_coords top l : list R) (p : R) : Prop :=
  exists x, In x l /\ in_footprint x_coords top x p.

(** The list [acc] put in front of a returned list. *)
Definition prepend (acc : list R) (o : outcome (list R)) : outcome (list R) :=
  match o with
  | Returned l => Returned (acc ++ l)
  | Raised => Raised
  | OutOfFuel => OutOfFuel
  end.

(** A depth of [926 / sqrt 3] metres has a swath of one nautical mile at
    the default beam angle, which makes it a convenient unit for
    examples. *)
Definition unit_depth : R := 926 / sqrt 3.

(** Consecutive tracks of [l] are one advance apart. *)
Fixpoint spaced (x_coords top : list R) (f : R) (l : list R) : Prop :=
  match l with
  | a :: (b :: _) as t =>
      advance x_coords top f a = Some (b - a) /\ spaced x_coords top f t
  | _ => True
  end.

(** * Properties *)

(** ** The swath-width model *)

Section Swath.

Import PathOptimization.

Lemma deg2rad_60 : Numpy.deg2rad 60 = PI / 3.
Proof. unfold Numpy.deg2rad. field. Qed.

Lemma tan_60 : tan (Numpy.deg2rad 60) = sqrt 3.
Proof. rewrite deg2rad_60. exact tan_PI3. Qed.

Lemma sqrt3_pos : 0 < sqrt 3.
Proof. apply sqrt_lt_R0. lra. Qed.

Lemma tan_deg_pos (a : R) : 0 < a < 90 -> 0 < tan (Numpy.deg2rad a).
Proof.
  intros [Ha0 Ha90]. pose proof PI_RGT_0 as Hpi.
  unfold Numpy.deg2rad. apply tan_gt_0; nra.
Qed.

Lemma swath_default (d : R) :
  calculate_swath_width d default_beam_angle_deg = 2 * d * sqrt 3.
Proof.
  unfold calculate_swath_width, default_beam_angle_deg.
  now rewrite tan_60.
Qed.

Lemma swath_default_pos (d : R) :
  0 < d -> 0 < calculate_swath_width d default_beam_angle_deg.
Proof.
  intros Hd. rewrite swath_default. pose proof sqrt3_pos. nra.
Qed.

Lemma swath_default_nonneg (d : R) :
  0 <= d -> 0 <= calculate_swath_width d default_beam_angle_deg.
Proof.
  intros Hd. rewrite swath_default. pose proof sqrt3_pos. nra.
Qed.

Lemma swath_default_le (d1 d2 : R) :
  d1 <= d2 ->
  calculate_swath_width d1 default_beam_angle_deg
  <= calculate_swath_width d2 default_beam_angle_deg.
Proof.
  intros Hd. rewrite !swath_default. pose proof sqrt3_pos. nra.
Qed.

Lemma swath_unit (t : R) :
  calculate_swath_width (t * unit_depth) default_beam_angle_deg = 1852 * t.
Proof.
  rewrite swath_default. unfold unit_depth.
  pose proof sqrt3_pos. field. lra.
Qed.

Lemma unit_depth_pos : 0 < unit_depth.
Proof.
  unfold unit_depth. apply Rdiv_lt_0_compat; [lra | exact sqrt3_pos].
Qed.

End Swath.

(** ** Interpolation *)

Section Interp.

Import Numpy.

(** A point of a segment lies between the ordinates of its ends. *)
Lemma segment_between (lo hi x x0 x1 y0 y1 : R) :
  x0 <= x -> x < x1 -> lo <= y0 <= hi -> lo <= y1 <= hi ->
  lo <= (y1 - y0) / (x1 - x0) * (x - x0) + y0 <= hi.
Proof.
  intros Hx0 Hx1 Hy0 Hy1.
  assert (Hd : 0 < x1 - x0) by lra.
  set (t := (x - x0) / (x1 - x0)).
  assert (Ht0 : 0 <= t).
  { unfold t. apply Rle_mult_inv_pos; lra. }
  assert (Ht1 : t <= 1).
  { unfold t. apply (Rmult_le_reg_r (x1 - x0)); [lra|].
    unfold Rdiv. rewrite Rmult_assoc, Rinv_l by lra. lra. }
  replace ((y1 - y0) / (x1 - x0) * (x - x0) + y0)
    with (y0 + t * (y1 - y0)) by (unfold t; field; lra).
  split; nra.
Qed.

Lemma interp_from_between (lo hi x : R) (xp fp : list R) :
  forall x0 y0,
    x0 <= x -> lo <= y0 <= hi ->
    Forall (fun y => lo <= y <= hi) fp ->
    lo <= interp_from x x0 y0 xp fp <= hi.
Proof.
  revert fp. induction xp as [|x1 xp IH]; intros fp x0 y0 Hx Hy Hfp.
  - simpl. lra.
  - destruct fp as [|y1 fp]; [simpl; lra|].
    inversion Hfp as [|? ? Hy1 Hfp']; subst.
    simpl. destruct (Rlt_dec x x1) as [Hlt|Hge].
    + apply segment_between; lra.
    + apply IH; [lra| assumption | assumption].
Qed.

(** With as many ordinates as abscissas, and at least one, [interp]
    returns, and its value lies within any bounds of the ordinates. *)
Lemma interp_between (lo hi x : R) (xp fp : list R) :
  List.length xp = List.length fp -> fp <> [] ->
  Forall (fun y => lo <= y <= hi) fp ->
  exists v, interp x xp fp = Some v /\ lo <= v <= hi.
Proof.
  intros Hlen Hne Hfp. unfold interp.
  rewrite Hlen, Nat.eqb_refl. simpl.
  destruct fp as [|y0 fp]; [congruence|].
  destruct xp as [|x0 xp]; [discriminate|].
  inversion Hfp as [|? ? Hy0 Hfp']; subst.
  eexists; split; [reflexivity|].
  destruct (Rlt_dec x x0) as [Hlt|Hge]; [lra|].
  apply interp_from_between; [lra | assumption | assumption].
Qed.

(** Bounds of a list of reals that is not empty. *)
Lemma list_bounds (l : list R) :
  l <> [] ->
  exists lo hi, In lo l /\ Forall (fun y => lo <= y <= hi) l.
Proof.
  induction l as [|a l IH]; [congruence|]. intros _.
  destruct l as [|b l].
  - exists a, a. split; [now left|]. constructor; [lra|constructor].
  - destruct IH as (lo & hi & Hin & Hall); [discriminate|].
    destruct (Rle_dec a lo) as [Hle|Hgt].
    + exists a, (Rmax a hi). split; [now left|].
      constructor.
      * split; [lra | apply Rmax_l].
      * eapply Forall_impl; [|exact Hall]. cbv beta. intros y Hy.
        pose proof (Rmax_r a hi). lra.
    + exists lo, (Rmax a hi). split; [now right|].
      constructor.
      * split; [lra | apply Rmax_l].
      * eapply Forall_impl; [|exact Hall]. cbv beta. intros y Hy.
        pose proof (Rmax_r a hi). lra.
Qed.

(** Over strictly positive ordinates the interpolant is bounded below
    by a positive constant. *)
Lemma interp_positive (xp fp : list R) :
  List.length xp = List.length fp -> fp <> [] ->
  Forall (fun y => 0 < y) fp ->
  exists m, 0 < m /\
    forall x, exists v, interp x xp fp = Some v /\ m <= v.
Proof.
  intros Hlen Hne Hpos.
  destruct (list_bounds fp Hne) as (lo & hi & Hin & Hall).
  exists lo. split.
  - rewrite Forall_forall in Hpos. now apply Hpos.
  - intros x.
    destruct (interp_between lo hi x xp fp Hlen Hne Hall) as (v & Hv & Hb).
    exists v. split; [assumption | lra].
Qed.

Lemma interp_nonneg (x : R) (xp fp : list R) (v : R) :
  Forall (fun y => 0 <= y) fp ->
  interp x xp fp = Some v -> 0 <= v.
Proof.
  intros Hpos Hv.
  assert (Hlen : List.length xp = List.length fp).
  { unfold interp in Hv.
    destruct (Nat.eqb (List.length xp) (List.length fp)) eqn:E;
      [now apply Nat.eqb_eq | discriminate]. }
  assert (Hne : fp <> []).
  { intros ->. unfold interp in Hv. rewrite Hlen in Hv. simpl in Hv.
    destruct xp; discriminate. }
  destruct (list_bounds fp Hne) as (lo & hi & Hin & Hall).
  destruct (interp_between lo hi x xp fp Hlen Hne Hall) as (w & Hw & Hb).
  rewrite Hv in Hw. injection Hw as <-.
  rewrite Forall_forall in Hpos. specialize (Hpos lo Hin). lra.
Qed.

(** Over a constant list of ordinates the interpolant is that constant. *)
Lemma interp_constant (D x : R) (xp fp : list R) :
  List.length xp = List.length fp -> fp <> [] ->
  Forall (fun y => y = D) fp ->
  interp x xp fp = Some D.
Proof.
  intros Hlen Hne Hall.
  destruct (interp_between D D x xp fp Hlen Hne) as (v & Hv & Hb).
  - eapply Forall_impl; [|exact Hall]. cbv beta. intros y ->. lra.
  - rewrite Hv. f_equal. lra.
Qed.

End Interp.

(** ** The placement loop *)

Section Loop.

Import PathOptimization.

Variables (x_coords top : list R) (W f : R).

Local Abbreviation loop fuel x acc :=
  (track_loop fuel x_coords top W f x acc).

Lemma prepend_app (a b : list R) (o : outcome (list R)) :
  prepend (a ++ b) o = prepend a (prepend b o).
Proof. destruct o; simpl; [now rewrite app_assoc | reflexivity..]. Qed.

(** The accumulator only prefixes the result. *)
Lemma track_loop_acc (fuel : nat) :
  forall x acc, loop fuel x acc = prepend acc (loop fuel x []).
Proof.
  induction fuel as [|n IH]; intros x acc; simpl; [reflexivity|].
  destruct (Rlt_dec x (W + 1e-6)).
  - destruct (Numpy.interp x x_coords top); [|reflexivity].
    rewrite IH. rewrite (IH _ [x]). now rewrite prepend_app.
  - simpl. now rewrite app_nil_r.
Qed.

(** One iteration, with the result built from the front. *)
Lemma track_loop_unfold (n : nat) (x : R) :
  loop (S n) x [] =
  if Rlt_dec x (W + 1e-6) then
    match advance x_coords top f x with
    | Some s => prepend [x] (loop n (x + s) [])
    | None => Raised
    end
  else Returned [].
Proof.
  unfold advance. simpl.
  destruct (Rlt_dec x (W + 1e-6)); [|reflexivity].
  destruct (Numpy.interp x x_coords top); [|reflexivity].
  now rewrite track_loop_acc.
Qed.

(** What a returning run looks like. *)
Lemma loop_returned_inv (n : nat) (x : R) (l : list R) :
  loop n x [] = Returned l ->
  (W + 1e-6 <= x /\ l = [])
  \/ (x < W + 1e-6 /\
      exists m s l', n = S (S m) /\ advance x_coords top f x = Some s /\
                     loop (S m) (x + s) [] = Returned l' /\ l = x :: l').
Proof.
  destruct n as [|n]; [discriminate|].
  rewrite track_loop_unfold.
  destruct (Rlt_dec x (W + 1e-6)) as [Hlt|Hge].
  - destruct (advance x_coords top f x) as [s|] eqn:Hs; [|discriminate].
    destruct (loop n (x + s) []) as [l'| |] eqn:Hl; simpl; try discriminate.
    intros [= <-]. right. split; [assumption|].
    destruct n as [|m]; [discriminate|].
    now exists m, s, l'.
  - intros [= <-]. left. split; [lra | reflexivity].
Qed.

(** More fuel does not change a result. *)
Lemma loop_fuel_mono (n : nat) :
  forall x l, loop n x [] = Returned l ->
              forall m, (n <= m)%nat -> loop m x [] = Returned l.
Proof.
  induction n as [|n IH]; intros x l Hl m Hm; [discriminate|].
  destruct m as [|m]; [lia|].
  rewrite track_loop_unfold in *.
  destruct (Rlt_dec x (W + 1e-6)); [|assumption].
  destruct (advance x_coords top f x) as [s|]; [|assumption].
  destruct (loop n (x + s) []) as [l'| |] eqn:Hl'; try discriminate.
  rewrite (IH _ _ Hl' m) by lia. assumption.
Qed.

(** Termination: a positive lower bound on the advance bounds the
    number of iterations. *)
Lemma loop_returns (delta : R) :
  0 < delta ->
  (forall x, exists s, advance x_coords top f x = Some s /\ delta <= s) ->
  forall n x, W + 1e-6 <= x + INR n * delta ->
              exists l, loop (S n) x [] = Returned l.
Proof.
  intros Hd Hadv.
  induction n as [|n IH]; intros x Hx; rewrite track_loop_unfold.
  - simpl in Hx. destruct (Rlt_dec x (W + 1e-6)); [lra|]. now exists [].
  - destruct (Rlt_dec x (W + 1e-6)); [|now exists []].
    destruct (Hadv x) as (s & -> & Hs).
    destruct (IH (x + s)) as (l & ->).
    + rewrite S_INR in Hx. nra.
    + now exists (x :: l).
Qed.

Lemma loop_terminates (delta : R) :
  0 < delta ->
  (forall x, exists s, advance x_coords top f x = Some s /\ delta <= s) ->
  forall x, exists n l, loop n x [] = Returned l.
Proof.
  intros Hd Hadv x.
  destruct (INR_unbounded ((W + 1e-6 - x) / delta)) as (n & Hn).
  destruct (loop_returns delta Hd Hadv n x) as (l & Hl).
  - apply Rgt_lt in Hn.
    apply (Rmult_lt_compat_r delta) in Hn; [|assumption].
    unfold Rdiv in Hn. rewrite Rmult_assoc, Rinv_l in Hn by lra. lra.
  - now exists (S n), l.
Qed.

(** A cursor that does not move never leaves the loop. *)
Lemma loop_stuck (x : R) :
  x < W + 1e-6 -> advance x_coords top f x = Some 0 ->
  forall n l, loop n x [] <> Returned l.
Proof.
  intros Hx Hs. induction n as [|n IH]; intros l; [discriminate|].
  rewrite track_loop_unfold.
  destruct (Rlt_dec x (W + 1e-6)); [|contradiction].
  rewrite Hs, Rplus_0_r.
  destruct (loop n x []) as [l'| |] eqn:Hl; try discriminate.
  now elim (IH l').
Qed.

End Loop.

(** ** Order, cells and counts of the returned positions *)

Section Positions.

Import PathOptimization.

Variables (x_coords top : list R) (W f : R).

Local Abbreviation loop fuel x acc :=
  (track_loop fuel x_coords top W f x acc).

Lemma strictly_increasing_above (x : R) (l : list R) :
  strictly_increasing (x :: l) -> Forall (fun y => x < y) l.
Proof.
  revert x. induction l as [|y l IH]; intros x H; [constructor|].
  destruct H as [Hxy Hl]. constructor; [assumption|].
  eapply Forall_impl; [|exact (IH y Hl)]. cbv beta. intros z Hz. lra.
Qed.

Lemma strictly_increasing_NoDup (l : list R) :
  strictly_increasing l -> NoDup l.
Proof.
  induction l as [|x l IH]; intros H; [constructor|].
  constructor.
  - pose proof (strictly_increasing_above x l H) as Hab.
    rewrite Forall_forall in Hab. intros Hin.
    specialize (Hab x Hin). lra.
  - apply IH. destruct l; [exact I | exact (proj2 H)].
Qed.

(** A non-empty result starts at the initial cursor. *)
Lemma loop_head (n : nat) (x : R) (l : list R) :
  loop n x [] = Returned l ->
  x < W + 1e-6 -> exists l', l = x :: l'.
Proof.
  intros Hl Hx.
  destruct (loop_returned_inv _ _ _ _ _ _ _ Hl)
    as [[Hge _]|(_ & m & s & l' & _ & _ & _ & ->)]; [lra|].
  now exists l'.
Qed.

(** No iteration runs when the initial cursor is at or beyond the
    bound. *)
Lemma loop_empty (n : nat) (x : R) :
  W + 1e-6 <= x -> loop (S n) x [] = Returned [].
Proof.
  intros Hx. rewrite track_loop_unfold.
  destruct (Rlt_dec x (W + 1e-6)); [lra | reflexivity].
Qed.

(** When no advance is negative, a returned list is strictly
    increasing. *)
Lemma loop_increasing :
  (forall x s, advance x_coords top f x = Some s -> 0 <= s) ->
  forall n x l, loop n x [] = Returned l -> strictly_increasing l.
Proof.
  intros Hadv. induction n as [|n IH]; intros x l Hl; [discriminate|].
  destruct (loop_returned_inv _ _ _ _ _ _ _ Hl)
    as [[_ ->]|(Hx & m & s & l' & [= ->] & Hs & Hl' & ->)]; [exact I|].
  pose proof (IH _ _ Hl') as Hinc.
  destruct l' as [|y l'']; [exact I|].
  split; [|assumption].
  destruct (loop_returned_inv _ _ _ _ _ _ _ Hl')
    as [[_ [=]]|(_ & _ & _ & _ & _ & _ & _ & [= -> _])].
  destruct (Req_dec_T s 0) as [->|Hne].
  - now elim (loop_stuck _ _ _ _ x Hx Hs _ _ Hl).
  - specialize (Hadv _ _ Hs). lra.
Qed.

(** The half-open cells between a track and the next cursor tile the
    stretch from the initial cursor to the bound. *)
Lemma loop_cells :
  forall n x l, loop n x [] = Returned l ->
  forall p, x <= p < W + 1e-6 ->
  exists y s, In y l /\ advance x_coords top f y = Some s
              /\ y <= p < y + s.
Proof.
  induction n as [|n IH]; intros x l Hl p Hp; [discriminate|].
  destruct (loop_returned_inv _ _ _ _ _ _ _ Hl)
    as [[Hge _]|(Hx & m & s & l' & [= ->] & Hs & Hl' & ->)]; [lra|].
  destruct (Rlt_dec p (x + s)) as [Hlt|Hge].
  - exists x, s. split; [now left|]. split; [assumption | lra].
  - destruct (IH _ _ Hl' p) as (y & t & Hin & Ht & Hy); [lra|].
    exists y, t. split; [now right|]. now split.
Qed.

(** With one and the same positive advance [s] everywhere, the result
    is an arithmetic progression, and its length is pinned down by
    the bound. *)
Lemma loop_progression (s : R) :
  0 < s -> (forall x, advance x_coords top f x = Some s) ->
  forall n x l, loop n x [] = Returned l ->
    l = map (fun k => x + INR k * s) (seq 0 (List.length l))
    /\ (x < W + 1e-6 ->
        x + (INR (List.length l) - 1) * s < W + 1e-6
        <= x + INR (List.length l) * s).
Proof.
  intros Hs Hadv. induction n as [|n IH]; intros x l Hl; [discriminate|].
  destruct (loop_returned_inv _ _ _ _ _ _ _ Hl)
    as [[Hge ->]|(Hx & m & s' & l' & [= ->] & Hs' & Hl' & ->)].
  - split; [reflexivity | lra].
  - rewrite Hadv in Hs'. injection Hs' as <-.
    destruct (IH _ _ Hl') as [Hmap Hlen].
    split.
    + cbn [List.length seq map]. f_equal; [simpl; lra|].
      rewrite <- seq_shift, map_map.
      rewrite Hmap at 1. apply map_ext. intros k.
      rewrite S_INR. lra.
    + intros _. cbn [List.length]. rewrite S_INR.
      destruct (loop_returned_inv _ _ _ _ _ _ _ Hl')
        as [[Hge ->]|(Hx' & _)].
      * simpl. lra.
      * specialize (Hlen Hx'). lra.
Qed.

(** The length as a ceiling. *)
Lemma loop_progression_length (s : R) :
  0 < s -> (forall x, advance x_coords top f x = Some s) ->
  forall n x l, loop n x [] = Returned l ->
    List.length l = Z.to_nat (Zceil ((W + 1e-6 - x) / s)).
Proof.
  intros Hs Hadv n x l Hl.
  destruct (loop_progression s Hs Hadv n x l Hl) as [_ Hlen].
  destruct (Rlt_dec x (W + 1e-6)) as [Hx|Hx].
  - specialize (Hlen Hx).
    rewrite (Zceil_eq (Z.of_nat (List.length l))); [now rewrite Nat2Z.id|].
    rewrite <- INR_IZR_INZ. split.
    + apply (Rmult_lt_reg_r s); [assumption|].
      unfold Rdiv. rewrite Rmult_assoc, Rinv_l by lra. lra.
    + apply (Rmult_le_reg_r s); [assumption|].
      unfold Rdiv. rewrite Rmult_assoc, Rinv_l by lra. lra.
  - destruct (loop_returned_inv _ _ _ _ _ _ _ Hl)
      as [[_ ->]|(Hx' & _)]; [|contradiction].
    assert (Hle : (Zceil ((W + 1e-6 - x) / s) <= 0)%Z).
    { rewrite <- (Zceil_eq 0 0) by lra. apply Zceil_le.
      apply (Rmult_le_reg_r s); [assumption|].
      unfold Rdiv. rewrite Rmult_assoc, Rinv_l by lra. lra. }
    simpl. destruct (Zceil ((W + 1e-6 - x) / s)); simpl; lia.
Qed.

End Positions.

(** ** Interpolation at the grid nodes *)

Section Nodes.

Import Numpy.






End Nodes.

(** ** The advance of the cursor *)

Section Advance.

Import PathOptimization.

Variables (x_coords top : list R) (f : R).
Hypothesis Hlen : List.length x_coords = List.length top.
Hypothesis Hne : top <> [].

Lemma advance_lower_bound :
  Forall (fun d => 0 < d) top -> 0 < f ->
  exists delta, 0 < delta /\
    forall x, exists s, advance x_coords top f x = Some s /\ delta <= s.
Proof.
  intros Hpos Hf.
  destruct (interp_positive x_coords top Hlen Hne Hpos)
    as (m & Hm & Hint).
  exists (calculate_swath_width m 60 * f / 1852). split.
  - pose proof (swath_default_pos m Hm) as Hsw.
    unfold default_beam_angle_deg in Hsw.
    apply Rdiv_lt_0_compat; [nra | lra].
  - intros x. destruct (Hint x) as (v & Hv & Hmv).
    unfold advance. rewrite Hv. eexists; split; [reflexivity|].
    pose proof (swath_default_le m v Hmv) as Hsw.
    unfold default_beam_angle_deg in Hsw.
    apply Rmult_le_compat_r; [lra | nra].
Qed.

Lemma advance_constant (D : R) :
  Forall (fun y => y = D) top ->
  forall x, advance x_coords top f x = Some (step D f).
Proof.
  intros Hall x. unfold advance, step.
  now rewrite (interp_constant D x x_coords top Hlen Hne Hall).
Qed.

End Advance.

Lemma advance_sign (x_coords top : list R) (f x s : R) :
  Forall (fun d => 0 <= d) top ->
  advance x_coords top f x = Some s ->
  (0 <= f -> 0 <= s) /\ (f <= 0 -> s <= 0).
Proof.
  intros Hpos. unfold advance.
  destruct (Numpy.interp x x_coords top) as [v|] eqn:Hv; [|discriminate].
  intros [= <-].
  pose proof (interp_nonneg _ _ _ _ Hpos Hv) as Hv0.
  pose proof (swath_default_nonneg v Hv0) as Hsw.
  unfold PathOptimization.default_beam_angle_deg in Hsw.
  split; intros Hf.
  - apply Rmult_le_pos; [nra | lra].
  - assert (0 <= - (PathOptimization.calculate_swath_width v 60 * f) / 1852).
    { apply Rmult_le_pos; [nra | lra]. }
    lra.
Qed.

Section Backward.

Import PathOptimization.

Variables (x_coords top : list R) (W f : R).

(** When no advance is positive, the loop can only return without
    having run. *)
Lemma loop_never_forward :
  (forall x s, advance x_coords top f x = Some s -> s <= 0) ->
  forall n x l, track_loop n x_coords top W f x [] = Returned l -> l = [].
Proof.
  intros Hadv. induction n as [|n IH]; intros x l Hl; [discriminate|].
  destruct (loop_returned_inv _ _ _ _ _ _ _ Hl)
    as [[_ ->]|(Hx & m & s & l' & [= ->] & Hs & Hl' & ->)];
    [reflexivity|].
  pose proof (IH _ _ Hl') as ->. specialize (Hadv _ _ Hs).
  destruct (loop_returned_inv _ _ _ _ _ _ _ Hl')
    as [[Hge _]|(_ & _ & _ & ? & _ & _ & _ & [=])].
  lra.
Qed.

End Backward.

(** ** [optimize_track_positions] *)

Section Optimize.

Import PathOptimization.

Lemma corner_row0 (a : array2) (d : R) :
  corner a = Some d -> exists r, row0 a = Some (d :: r).
Proof.
  destruct a as [|[|d' r] a]; simpl; try discriminate.
  intros [= ->]. now exists r.
Qed.

Lemma optimize_unfold (fuel : nat) (X Y data : array2)
    (x_coords top : list R) (d0 W f : R) :
  corner data = Some d0 ->
  row0 X = Some x_coords -> row0 data = Some top ->
  optimize_track_positions fuel X Y data W f
  = track_loop fuel x_coords top W f (first_x d0) [].
Proof.
  intros Hc HX Hd. unfold optimize_track_positions.
  now rewrite Hc, HX, Hd.
Qed.

(** On a well-formed grid the corner is the head of the reference
    edge. *)
Lemma scan_axis_corner (X data : array2) (x_coords top : list R) :
  scan_axis X data x_coords top ->
  exists d0 r, top = d0 :: r /\ corner data = Some d0.
Proof.
  intros [_ Htop _ Hne _].
  destruct top as [|d0 r]; [congruence|].
  exists d0, r. split; [reflexivity|].
  destruct data as [|row data]; [discriminate|].
  simpl in Htop. now injection Htop as ->.
Qed.

Lemma first_x_unit (t : R) : first_x (t * unit_depth) = t / 2.
Proof. unfold first_x. rewrite swath_unit. unfold NM_TO_M. lra. Qed.

Lemma advance_unit (x_coords top : list R) (f x t : R) :
  Numpy.interp x x_coords top = Some (t * unit_depth) ->
  advance x_coords top f x = Some (t * f).
Proof.
  intros H. unfold advance. rewrite H. f_equal.
  pose proof (swath_unit t) as Hsw.
  unfold default_beam_angle_deg in Hsw. rewrite Hsw. lra.
Qed.

Lemma half_first_step_unit (t : R) : half_first_step (t * unit_depth) = t / 2.
Proof. exact (first_x_unit t). Qed.

Lemma step_unit (t f : R) : step (t * unit_depth) f = t * f.
Proof.
  unfold step. pose proof (swath_unit t) as Hsw.
  unfold default_beam_angle_deg in Hsw. rewrite Hsw. lra.
Qed.

End Optimize.

(** Deciding the comparisons of a run on concrete numbers. *)
Ltac decide_Rlt :=
  repeat match goal with
         | |- context [Rlt_dec ?a ?b] =>
             destruct (Rlt_dec a b); [try (exfalso; lra) | try (exfalso; lra)]
         end.

(** ** Termination, order and emptiness of the track list *)

Section TrackList.

Import PathOptimization.

Variables (X Y bathymetry_data : array2) (x_coords top : list R).
Variables (W f : R).

Lemma positive_edge_returns :
  scan_axis X bathymetry_data x_coords top ->
  Forall (fun d => 0 < d) top -> 0 < f ->
  exists fuel l,
    optimize_track_positions fuel X Y bathymetry_data W f = Returned l
    /\ forall fuel', (fuel <= fuel')%nat ->
         optimize_track_positions fuel' X Y bathymetry_data W f
         = Returned l.
Proof.
  intros Hax Hpos Hf.
  destruct (scan_axis_corner _ _ _ _ Hax) as (d0 & r & Htop & Hc).
  destruct Hax as [HX Hd Hlen Hne _].
  destruct (advance_lower_bound x_coords top f Hlen Hne Hpos Hf)
    as (delta & Hdelta & Hadv).
  destruct (loop_terminates x_coords top W f delta Hdelta Hadv (first_x d0))
    as (n & l & Hl).
  exists n, l. split.
  - now rewrite (optimize_unfold _ _ _ _ _ _ _ _ _ Hc HX Hd).
  - intros m Hm. rewrite (optimize_unfold _ _ _ _ _ _ _ _ _ Hc HX Hd).
    now apply (loop_fuel_mono _ _ _ _ n).
Qed.


(** C3, amended.  On a grid whose reference-edge depths are
    non-negative, every list that [optimize_track_positions] returns is
    strictly increasing and free of duplicates; and when those depths
    are strictly positive and the spacing factor is positive, a list is
    returned. *)
Theorem track_positions_strictly_increasing :
  scan_axis X bathymetry_data x_coords top ->
  Forall (fun d => 0 <= d) top ->
  (forall fuel l,
      optimize_track_positions fuel X Y bathymetry_data W f = Returned l ->
      strictly_increasing l /\ NoDup l)
  /\ (Forall (fun d => 0 < d) top -> 0 < f ->
      exists fuel l,
        optimize_track_positions fuel X Y bathymetry_data W f = Returned l).
Proof.
  intros Hax Hpos. split.
  - intros fuel l Hl.
    destruct (scan_axis_corner _ _ _ _ Hax) as (d0 & r & Htop & Hc).
    rewrite (optimize_unfold _ _ _ _ _ _ _ _ _ Hc (axis_row _ _ _ _ Hax)
               (axis_top _ _ _ _ Hax)) in Hl.
    assert (Hinc : strictly_increasing l).
    { destruct (Rle_dec 0 f) as [Hf|Hf].
      - refine (loop_increasing _ _ _ _ _ _ _ _ Hl).
        intros x s Hs. now apply (advance_sign _ _ _ _ _ Hpos Hs).
      - assert (Hback : forall x s,
                   advance x_coords top f x = Some s -> s <= 0).
        { intros x s Hs. apply (advance_sign _ _ _ _ _ Hpos Hs). lra. }
        now rewrite (loop_never_forward _ _ _ _ Hback _ _ _ Hl). }
    split; [assumption | now apply strictly_increasing_NoDup].
  - intros Hpos' Hf.
    destruct (positive_edge_returns Hax Hpos' Hf) as (n & l & Hl & _).
    now exists n, l.
Qed.

(** C10.  Let [x0] be half the swath width at the corner depth, in
    nautical miles.  When [x0] reaches [W + 1e-6] the call returns the
    empty list; every returned list is non-empty exactly when
    [x0 < W + 1e-6], and then starts with [x0]; and on a grid with
    strictly positive reference-edge depths and a positive spacing
    factor a list is returned. *)
Theorem track_list_empty_iff (d0 : R) :
  corner bathymetry_data = Some d0 ->
  row0 X = Some x_coords ->
  row0 bathymetry_data = Some top ->
  (W + 1e-6 <= first_x d0 ->
   forall fuel,
     optimize_track_positions (S fuel) X Y bathymetry_data W f
     = Returned [])
  /\ (forall fuel l,
        optimize_track_positions fuel X Y bathymetry_data W f = Returned l ->
        (l <> [] <-> first_x d0 < W + 1e-6)
        /\ (l <> [] -> hd_error l = Some (first_x d0)))
  /\ (scan_axis X bathymetry_data x_coords top ->
      Forall (fun d => 0 < d) top -> 0 < f ->
      exists fuel l,
        optimize_track_positions fuel X Y bathymetry_data W f = Returned l).
Proof.
  intros Hc HX Hd. split; [|split].
  - intros Hge fuel. rewrite (optimize_unfold _ _ _ _ _ _ _ _ _ Hc HX Hd).
    now apply loop_empty.
  - intros fuel l Hl.
    rewrite (optimize_unfold _ _ _ _ _ _ _ _ _ Hc HX Hd) in Hl.
    destruct (loop_returned_inv _ _ _ _ _ _ _ Hl)
      as [[Hge ->]|(Hx & _ & _ & l' & _ & _ & _ & ->)].
    + split; [split; [congruence | lra] | congruence].
    + split; [split; [now intros _ | discriminate] | reflexivity].
  - intros Hax Hpos Hf.
    destruct (positive_edge_returns Hax Hpos Hf) as (n & l & Hl & _).
    now exists n, l.
Qed.

End TrackList.

(** ** Counts and coverage *)

Section Coverage.

Import PathOptimization.

Variables (X Y bathymetry_data : array2) (x_coords top : list R).
Variables (W f : R).

Lemma constant_depth_top (D : R) :
  row0 bathymetry_data = Some top ->
  all_cells (fun d => d = D) bathymetry_data ->
  Forall (fun d => d = D) top.
Proof.
  intros Htop Hall. destruct bathymetry_data as [|r a]; [discriminate|].
  injection Htop as ->. now inversion Hall.
Qed.

(** C1, amended.  On a constant-depth grid of depth [D > 0], with a
    positive spacing factor, [optimize_track_positions] returns the
    arithmetic progression that starts at [half_first_step] and
    advances by [step]; its length is
    [ceil ((W + 1e-6 - half_first_step) / step)], or zero when that is
    negative; it is empty when [half_first_step] reaches [W + 1e-6],
    and otherwise its first element is [half_first_step]. *)
Theorem track_count_constant_depth (D : R) :
  scan_axis X bathymetry_data x_coords top ->
  all_cells (fun d => d = D) bathymetry_data ->
  0 < D -> 0 < f ->
  exists fuel l,
    optimize_track_positions fuel X Y bathymetry_data W f = Returned l
    /\ List.length l
       = Z.to_nat (Zceil ((W + 1e-6 - half_first_step D) / step D f))
    /\ l = map (fun k => half_first_step D + INR k * step D f)
             (seq 0 (List.length l))
    /\ (half_first_step D < W + 1e-6 ->
        hd_error l = Some (half_first_step D))
    /\ (W + 1e-6 <= half_first_step D -> l = []).
Proof.
  intros Hax Hall HD Hf.
  pose proof (constant_depth_top D (axis_top _ _ _ _ Hax) Hall) as Htop.
  assert (Hpos : Forall (fun d => 0 < d) top).
  { eapply Forall_impl; [|exact Htop]. cbv beta. intros d ->. exact HD. }
  destruct (positive_edge_returns X Y bathymetry_data x_coords top W f
              Hax Hpos Hf) as (n & l & Hl & _).
  exists n, l. split; [assumption|].
  destruct (scan_axis_corner _ _ _ _ Hax) as (d0 & r & Hd0 & Hc).
  assert (d0 = D) as ->.
  { rewrite Hd0 in Htop. now inversion Htop. }
  rewrite (optimize_unfold _ _ _ _ _ _ _ _ _ Hc (axis_row _ _ _ _ Hax)
             (axis_top _ _ _ _ Hax)) in Hl.
  change (first_x D) with (half_first_step D) in Hl.
  assert (Hstep : 0 < step D f).
  { unfold step. pose proof (swath_default_pos D HD) as Hsw.
    unfold default_beam_angle_deg in Hsw.
    apply Rdiv_lt_0_compat; [nra | lra]. }
  pose proof (advance_constant x_coords top f (axis_length _ _ _ _ Hax)
                (axis_nonempty _ _ _ _ Hax) D Htop) as Hadv.
  split; [|split; [|split]].
  - exact (loop_progression_length _ _ _ _ _ Hstep Hadv _ _ _ Hl).
  - exact (proj1 (loop_progression _ _ _ _ _ Hstep Hadv _ _ _ Hl)).
  - intros Hx. destruct (loop_head _ _ _ _ _ _ _ Hl Hx) as (l' & ->).
    reflexivity.
  - intros Hx.
    destruct (loop_returned_inv _ _ _ _ _ _ _ Hl) as [[_ ->]|[Hlt _]];
      [reflexivity | lra].
Qed.

(** C4, amended.  On a grid with strictly positive reference-edge
    depths and a positive spacing factor, [optimize_track_positions]
    returns a list such that: when the first cursor [x0] lies below
    [W + 1e-6], the list starts with [x0], [x0] is half the corner
    swath, and position [0] lies in the first track's footprint
    whenever the depth interpolated at [x0] is at least the corner
    depth; and every point from [x0] to [W] lies in the half-open cell
    between some returned track and the cursor that follows it, one
    advance (swath width times the spacing factor) further. *)
Theorem track_cells_cover (d0 : R) :
  scan_axis X bathymetry_data x_coords top ->
  Forall (fun d => 0 < d) top -> 0 < f ->
  corner bathymetry_data = Some d0 ->
  exists fuel l,
    optimize_track_positions fuel X Y bathymetry_data W f = Returned l
    /\ (first_x d0 < W + 1e-6 ->
        hd_error l = Some (first_x d0)
        /\ first_x d0 - 0.5 * calculate_swath_width d0 60 / 1852 = 0
        /\ forall v,
             Numpy.interp (first_x d0) x_coords top = Some v -> d0 <= v ->
             in_footprint x_coords top (first_x d0) 0)
    /\ (forall p, first_x d0 <= p <= W ->
        exists x s, In x l /\ advance x_coords top f x = Some s
                    /\ x <= p < x + s).
Proof.
  intros Hax Hpos Hf Hc.
  destruct (positive_edge_returns X Y bathymetry_data x_coords top W f
              Hax Hpos Hf) as (n & l & Hl & _).
  exists n, l. split; [assumption|].
  rewrite (optimize_unfold _ _ _ _ _ _ _ _ _ Hc (axis_row _ _ _ _ Hax)
             (axis_top _ _ _ _ Hax)) in Hl.
  split.
  - intros Hx. destruct (loop_head _ _ _ _ _ _ _ Hl Hx) as (l' & ->).
    split; [reflexivity|]. split.
    + unfold first_x, default_beam_angle_deg, NM_TO_M. lra.
    + intros v Hv Hle. unfold in_footprint, half_swath_nm. rewrite Hv.
      pose proof (swath_default_le d0 v Hle) as Hsw.
      assert (Hd0 : 0 < d0).
      { destruct (corner_row0 _ _ Hc) as (r & Hr).
        rewrite (axis_top _ _ _ _ Hax) in Hr. injection Hr as ->.
        now inversion Hpos. }
      pose proof (swath_default_pos d0 Hd0) as Hsw0.
      unfold first_x, NM_TO_M. unfold default_beam_angle_deg in *. lra.
  - intros p Hp.
    apply (loop_cells _ _ _ _ _ _ _ Hl p). lra.
Qed.

End Coverage.

(** Counterexample to C1 as stated: at a constant depth of [unit_depth]
    (swath width 1852 m), width [3] and spacing factor [1.02] the call
    returns three tracks, [0.5], [1.52] and [2.54], while
    [ceil ((W - half_first_step) / step) + 1] is four. *)
Lemma track_count_claimed_formula_fails :
  PathOptimization.optimize_track_positions 4
    [[0; 3]] [[0; 0]] [[1 * unit_depth; 1 * unit_depth]] 3 1.02
  = Returned [0.5; 1.52; 2.54]
  /\ Z.of_nat (List.length [0.5; 1.52; 2.54])
     <> (Zceil ((3 - half_first_step (1 * unit_depth))
                / step (1 * unit_depth) 1.02) + 1)%Z
  /\ hd_error [0.5; 1.52; 2.54] = Some (half_first_step (1 * unit_depth)).
Proof.
  split; [|split].
  - erewrite optimize_unfold by reflexivity.
    rewrite first_x_unit.
    do 3 (rewrite track_loop_unfold; decide_Rlt;
          rewrite (advance_unit _ _ _ _ 1)
            by (unfold Numpy.interp; simpl; decide_Rlt;
                f_equal; field; lra)).
    rewrite track_loop_unfold; decide_Rlt.
    simpl. repeat (f_equal; try lra).
  - rewrite half_first_step_unit, step_unit.
    rewrite (Zceil_eq 3); [simpl; lia|]. lra.
  - rewrite half_first_step_unit. simpl. f_equal. lra.
Qed.

(** Counterexample to C4 as stated: at a constant depth of [unit_depth]
    every footprint is one nautical mile wide and, with the spacing
    factor [1.02 > 1], consecutive tracks are [1.02] apart; the point
    [1.01] of [[0, 4]] lies in no footprint. *)
Lemma footprints_leave_gap :
  PathOptimization.optimize_track_positions 5
    [[0; 4]] [[0; 0]] [[1 * unit_depth; 1 * unit_depth]] 4 1.02
  = Returned [0.5; 1.52; 2.54; 3.56]
  /\ 0 <= 1.01 <= 4
  /\ ~ covered [0; 4] [1 * unit_depth; 1 * unit_depth]
         [0.5; 1.52; 2.54; 3.56] 1.01.
Proof.
  split; [|split; [lra|]].
  - erewrite optimize_unfold by reflexivity.
    rewrite first_x_unit.
    do 4 (rewrite track_loop_unfold; decide_Rlt;
          rewrite (advance_unit _ _ _ _ 1)
            by (unfold Numpy.interp; simpl; decide_Rlt;
                f_equal; field; lra)).
    rewrite track_loop_unfold; decide_Rlt.
    simpl. repeat (f_equal; try lra).
  - intros (x & Hin & Hfoot). unfold in_footprint, half_swath_nm in Hfoot.
    rewrite (interp_constant (1 * unit_depth)) in Hfoot;
      [|reflexivity | discriminate | repeat constructor].
    rewrite swath_unit in Hfoot.
    simpl in Hin. decompose [or] Hin; subst; lra.
Qed.

(** Counterexample to C3 as stated: with a negative depth at the second
    grid node the cursor steps backwards from [1] to [-0.53] and then
    leaves the region, so the returned list decreases. *)
Lemma track_positions_negative_depth_unordered :
  PathOptimization.optimize_track_positions 3
    [[0; 1]] [[0; 0]] [[2 * unit_depth; -1.5 * unit_depth]] 1 1.02
  = Returned [1; -0.53]
  /\ ~ strictly_increasing [1; -0.53].
Proof.
  split.
  - erewrite optimize_unfold by reflexivity.
    rewrite first_x_unit.
    rewrite track_loop_unfold. decide_Rlt.
    rewrite (advance_unit _ _ _ _ (-1.5))
      by (unfold Numpy.interp; simpl; decide_Rlt; reflexivity).
    rewrite track_loop_unfold. decide_Rlt.
    rewrite (advance_unit _ _ _ _ 2)
      by (unfold Numpy.interp; simpl; decide_Rlt; reflexivity).
    rewrite track_loop_unfold. decide_Rlt.
    simpl. repeat (f_equal; try lra).
  - simpl. lra.
Qed.

(** ** The swath-width contract *)

(** C5.  [calculate_swath_width d a] is [2 * d * tan (radians a)] for
    every depth and angle, in both copies of the function; at the
    default angle of 60 degrees this is [2 * d * sqrt 3]. *)
Theorem swath_width_formula (d a : R) :
  PathOptimization.calculate_swath_width d a = 2 * d * tan (a * PI / 180)
  /\ PerformanceComparison.calculate_swath_width d a
     = 2 * d * tan (a * PI / 180)
  /\ PathOptimization.calculate_swath_width d
       PathOptimization.default_beam_angle_deg
     = 2 * d * sqrt 3.
Proof.
  assert (Hrad : Numpy.deg2rad a = a * PI / 180)
    by (unfold Numpy.deg2rad; field).
  split; [|split].
  - unfold PathOptimization.calculate_swath_width. now rewrite Hrad.
  - unfold PerformanceComparison.calculate_swath_width. now rewrite Hrad.
  - apply swath_default.
Qed.

(** C6.  For depths [0 <= d1 < d2] and a beam half-angle strictly
    between 0 and 90 degrees, the swath at [d1] is at most the swath at
    [d2]; and the swath at depth [0] is [0]. *)
Theorem swath_width_monotone (d1 d2 a : R) :
  0 <= d1 < d2 -> 0 < a < 90 ->
  PathOptimization.calculate_swath_width d1 a
  <= PathOptimization.calculate_swath_width d2 a
  /\ PathOptimization.calculate_swath_width 0 a = 0.
Proof.
  intros Hd Ha. pose proof (tan_deg_pos a Ha) as Htan.
  unfold PathOptimization.calculate_swath_width. split; [nra | ring].
Qed.

Lemma swath_width_monotone_witness :
  PathOptimization.calculate_swath_width 25 60
  <= PathOptimization.calculate_swath_width 175 60
  /\ PathOptimization.calculate_swath_width 0 60 = 0.
Proof. apply (swath_width_monotone 25 175 60); lra. Defined.

(** ** The reporting helpers *)

(** C9.  [calculate_coverage_metrics] returns the pair
    [(99.786, 100 - 99.786)] whatever its arguments, so any two calls
    agree; and [get_hybrid_metrics] returns the record
    [(180.0, 0.214, 15.0)]. *)
Theorem reported_metrics_constant
    (tracks1 tracks2 : list R) (X1 Y1 data1 X2 Y2 data2 : array2) :
  PathOptimization.calculate_coverage_metrics tracks1 X1 Y1 data1
  = (99.786, 100 - 99.786)
  /\ PathOptimization.calculate_coverage_metrics tracks1 X1 Y1 data1
     = PathOptimization.calculate_coverage_metrics tracks2 X2 Y2 data2
  /\ PerformanceComparison.get_hybrid_metrics tt
     = PerformanceComparison.mkPerformanceMetrics 180.0 0.214 15.0.
Proof. repeat split. Qed.

(** C8, amended.  For a hybrid record with path length 180 and a
    baseline record with path length 200 whose overlap percentage is not
    zero, [calculate_improvements] returns a dictionary whose ['length']
    entry is [(200 - 180) / 200 * 100], which is exactly 10. *)
Theorem length_improvement_ten_percent
    (hybrid baseline : PerformanceComparison.PerformanceMetrics) :
  PerformanceComparison.path_length_nm hybrid = 180 ->
  PerformanceComparison.path_length_nm baseline = 200 ->
  PerformanceComparison.overlap_percentage baseline <> 0 ->
  exists d,
    PerformanceComparison.calculate_improvements hybrid baseline = Returned d
    /\ PerformanceComparison.get "length" d
       = Some ((PerformanceComparison.path_length_nm baseline
                - PerformanceComparison.path_length_nm hybrid)
               / PerformanceComparison.path_length_nm baseline * 100)
    /\ PerformanceComparison.get "length" d = Some 10.
Proof.
  intros Hh Hb Ho.
  unfold PerformanceComparison.calculate_improvements,
    PerformanceComparison.true_div.
  destruct (Req_dec_T (PerformanceComparison.path_length_nm baseline) 0)
    as [H0|_]; [lra|].
  destruct (Req_dec_T (PerformanceComparison.overlap_percentage baseline) 0)
    as [H0|_]; [contradiction|].
  simpl. eexists. split; [reflexivity|]. simpl.
  split; [reflexivity|]. rewrite Hh, Hb. f_equal. lra.
Qed.

Lemma length_improvement_ten_percent_witness :
  exists d,
    PerformanceComparison.calculate_improvements
      (PerformanceComparison.get_hybrid_metrics tt)
      (PerformanceComparison.mkPerformanceMetrics 200 0.1 30)
    = Returned d
    /\ PerformanceComparison.get "length" d = Some 10.
Proof.
  destruct (length_improvement_ten_percent
              (PerformanceComparison.get_hybrid_metrics tt)
              (PerformanceComparison.mkPerformanceMetrics 200 0.1 30))
    as (d & Hd & _ & Hlen);
    [simpl; lra | reflexivity | simpl; lra |].
  exists d. now split.
Defined.

(** Counterexample to C8 as stated: with path lengths 180 and 200 but a
    baseline overlap of zero, the overlap quotient divides by zero and
    the call raises instead of returning a dictionary. *)
Lemma improvements_zero_overlap_raises :
  PerformanceComparison.path_length_nm
    (PerformanceComparison.get_hybrid_metrics tt) = 180
  /\ PerformanceComparison.path_length_nm
       (PerformanceComparison.mkPerformanceMetrics 200 0.1 0) = 200
  /\ PerformanceComparison.calculate_improvements
       (PerformanceComparison.get_hybrid_metrics tt)
       (PerformanceComparison.mkPerformanceMetrics 200 0.1 0)
     = Raised.
Proof.
  split; [simpl; lra|]. split; [reflexivity|].
  unfold PerformanceComparison.calculate_improvements,
    PerformanceComparison.true_div. simpl.
  destruct (Req_dec_T 200 0) as [H0|_]; [lra|].
  destruct (Req_dec_T 0 0) as [_|H0]; [reflexivity | now elim H0].
Qed.

(** ** The synthetic depth grids *)

Section Grids.

Import BathymetrySimulation.

(** The points of [linspace 0 stop n] lie between [0] and [stop]. *)
Lemma linspace_range (stop : R) (n : nat) :
  0 <= stop -> (2 <= n)%nat ->
  Forall (fun v => 0 <= v <= stop) (Numpy.linspace 0 stop n).
Proof.
  intros Hstop Hn. unfold Numpy.linspace. apply Forall_forall.
  intros v Hv. apply in_map_iff in Hv. destruct Hv as (i & <- & Hi).
  apply in_seq in Hi.
  assert (Hden : 0 < INR (n - 1)) by (apply lt_0_INR; lia).
  assert (Hi0 : 0 <= INR i) by apply pos_INR.
  assert (Hi1 : INR i <= INR (n - 1)) by (apply le_INR; lia).
  set (t := INR i / INR (n - 1)).
  assert (Ht0 : 0 <= t) by (unfold t; apply Rle_mult_inv_pos; lra).
  assert (Ht1 : t <= 1).
  { unfold t. apply (Rmult_le_reg_r (INR (n - 1))); [lra|].
    unfold Rdiv. rewrite Rmult_assoc, Rinv_l by lra. lra. }
  replace (0 + INR i * ((stop - 0) / INR (n - 1))) with (t * stop)
    by (unfold t; field; lra).
  split; nra.
Qed.

Lemma linspace_length (start stop : R) (n : nat) :
  List.length (Numpy.linspace start stop n) = n.
Proof. unfold Numpy.linspace. now rewrite length_map, length_seq. Qed.

(** A cell of an array computed from a mesh is computed from a point of
    each axis. *)
Lemma mesh_cells (P : R -> Prop) (g : R -> R -> R) (x y : list R) :
  (forall a b, In a x -> In b y -> P (g a b)) ->
  all_cells P (array_map2 g (fst (Numpy.meshgrid x y))
                 (snd (Numpy.meshgrid x y))).
Proof.
  intros HP. unfold all_cells, array_map2, map2, Numpy.meshgrid. simpl.
  apply Forall_forall. intros row Hrow.
  apply in_map_iff in Hrow. destruct Hrow as ([rx ry] & <- & Hin).
  pose proof (in_combine_l _ _ _ _ Hin) as Hl.
  pose proof (in_combine_r _ _ _ _ Hin) as Hr.
  apply in_map_iff in Hl. destruct Hl as (y0 & -> & _).
  apply in_map_iff in Hr. destruct Hr as (yi & <- & Hyi).
  simpl. apply Forall_forall. intros c Hc.
  apply in_map_iff in Hc. destruct Hc as ([a b] & <- & Hab).
  pose proof (in_combine_l _ _ _ _ Hab) as Ha.
  pose proof (in_combine_r _ _ _ _ Hab) as Hb.
  apply in_map_iff in Hb. destruct Hb as (a' & <- & _).
  simpl. now apply HP.
Qed.

(** The shape of an array computed from a mesh. *)
Lemma mesh_shape (g : R -> R -> R) (x y : list R) :
  let a := array_map2 g (fst (Numpy.meshgrid x y))
             (snd (Numpy.meshgrid x y)) in
  List.length a = List.length y
  /\ Forall (fun row => List.length row = List.length x) a.
Proof.
  unfold array_map2, map2, Numpy.meshgrid. simpl. split.
  - now rewrite length_map, length_combine, !length_map, Nat.min_id.
  - apply Forall_forall. intros row Hrow.
    apply in_map_iff in Hrow. destruct Hrow as ([rx ry] & <- & Hin).
    pose proof (in_combine_l _ _ _ _ Hin) as Hl.
    pose proof (in_combine_r _ _ _ _ Hin) as Hr.
    apply in_map_iff in Hl. destruct Hl as (y0 & -> & _).
    apply in_map_iff in Hr. destruct Hr as (yi & <- & _).
    simpl. now rewrite length_map, length_combine, length_map, Nat.min_id.
Qed.

(** The east-west part of the depth: slope plus the two variations
    along [x]. *)
Lemma x_part_nonneg (x : R) :
  0 <= x <= 4 ->
  0 <= 0.5 * (x / 4) * (175 - 25)
       + 20 * sin (2 * PI * x / 4)
       + 5 * sin (2 * PI * x / (0.3 * 4)).
Proof.
  intros Hx. pose proof PI_RGT_0 as Hpi.
  pose proof (SIN_bound (2 * PI * x / 4)) as B1.
  pose proof (SIN_bound (2 * PI * x / (0.3 * 4))) as B3.
  destruct (Rle_dec x 2) as [H2|H2]; [|lra].
  assert (S1 : 0 <= sin (2 * PI * x / 4)) by (apply sin_ge_0; nra).
  destruct (Rle_dec x 0.6) as [H6|H6]; [|lra].
  assert (S3 : 0 <= sin (2 * PI * x / (0.3 * 4))).
  { apply sin_ge_0.
    - apply Rle_mult_inv_pos; nra.
    - apply (Rmult_le_reg_r (0.3 * 4)); [lra|].
      unfold Rdiv. rewrite Rmult_assoc, Rinv_l by lra. nra. }
  lra.
Qed.

(** The north-south part of the depth. *)
Lemma y_part_nonneg (y : R) :
  0 <= y <= 5 ->
  0 <= 0.5 * (y / 5) * (175 - 25)
       + 10 * sin (2 * PI * y / 5)
       + 8 * sin (2 * PI * y / (0.7 * 5)).
Proof.
  intros Hy. pose proof PI_RGT_0 as Hpi.
  pose proof (SIN_bound (2 * PI * y / 5)) as B2.
  pose proof (SIN_bound (2 * PI * y / (0.7 * 5))) as B4.
  destruct (Rle_dec y 2.5) as [H2|H2]; [|lra].
  assert (S2 : 0 <= sin (2 * PI * y / 5)) by (apply sin_ge_0; nra).
  destruct (Rle_dec y 1.75) as [H6|H6]; [|lra].
  assert (S4 : 0 <= sin (2 * PI * y / (0.7 * 5))).
  { apply sin_ge_0.
    - apply Rle_mult_inv_pos; nra.
    - apply (Rmult_le_reg_r (0.7 * 5)); [lra|].
      unfold Rdiv. rewrite Rmult_assoc, Rinv_l by lra. nra. }
  lra.
Qed.

(** Over the region no depth is shallower than the 25 m of the
    north-west corner. *)
Lemma depth_cell_lower (x y : R) :
  0 <= x <= 4 -> 0 <= y <= 5 -> 25 <= depth_cell 4 5 x y.
Proof.
  intros Hx Hy. unfold depth_cell.
  pose proof (x_part_nonneg x Hx). pose proof (y_part_nonneg y Hy).
  lra.
Qed.

Lemma clip_range (a lo hi : R) :
  lo <= hi -> lo <= Numpy.clip a lo hi <= hi.
Proof.
  intros H. unfold Numpy.clip, Rmin, Rmax.
  destruct (Rle_dec a lo); destruct (Rle_dec _ hi); lra.
Qed.

End Grids.

(** C7.  Every cell of the 500 by 400 depth grid of
    [01_bathymetry_simulation.py] is non-negative (indeed at least 25),
    and every cell of the 500 by 400 grid of [generate_figures.py] lies
    in the clipped range from 0 to 300. *)
Theorem bathymetry_nonnegative :
  (let '(_, _, bathymetry_data, _, _) :=
     BathymetrySimulation.generate_bathymetry_data in
   all_cells (fun d => 0 <= d) bathymetry_data
   /\ all_cells (fun d => 25 <= d) bathymetry_data
   /\ List.length bathymetry_data = 500%nat
   /\ Forall (fun row => List.length row = 400%nat) bathymetry_data)
  /\ (let '(_, _, Z) := GenerateFigures.generate_bathymetry_data in
      all_cells (fun z => 0 <= z <= 300) Z
      /\ List.length Z = 500%nat
      /\ Forall (fun row => List.length row = 400%nat) Z).
Proof.
  split.
  - unfold BathymetrySimulation.generate_bathymetry_data. cbv zeta.
    assert (Hcells : all_cells (fun d => 25 <= d)
              (BathymetrySimulation.array_map2
                 (BathymetrySimulation.depth_cell 4 5)
                 (fst (Numpy.meshgrid (Numpy.linspace 0 4 400)
                         (Numpy.linspace 0 5 500)))
                 (snd (Numpy.meshgrid (Numpy.linspace 0 4 400)
                         (Numpy.linspace 0 5 500))))).
    { apply mesh_cells. intros a b Ha Hb.
      pose proof (linspace_range 4 400 ltac:(lra) ltac:(lia)) as Hx.
      pose proof (linspace_range 5 500 ltac:(lra) ltac:(lia)) as Hy.
      rewrite Forall_forall in Hx, Hy.
      apply depth_cell_lower; [now apply Hx | now apply Hy]. }
    split; [|split; [exact Hcells|]].
    + eapply Forall_impl; [|exact Hcells]. cbv beta. intros row Hrow.
      eapply Forall_impl; [|exact Hrow]. cbv beta. intros d Hd. lra.
    + pose proof (mesh_shape (BathymetrySimulation.depth_cell 4 5)
                    (Numpy.linspace 0 4 400) (Numpy.linspace 0 5 500))
        as Hshape.
      cbv zeta in Hshape. rewrite !linspace_length in Hshape.
      exact Hshape.
  - unfold GenerateFigures.generate_bathymetry_data. cbv zeta.
    pose proof (mesh_shape (GenerateFigures.raw_cell 4.0 5.0)
                  (Numpy.linspace 0 4.0 400) (Numpy.linspace 0 5.0 500))
      as Hshape.
    cbv zeta in Hshape. rewrite !linspace_length in Hshape.
    destruct Hshape as [Hrows Hcols].
    split; [|split].
    + unfold all_cells. apply Forall_forall. intros row Hrow.
      apply in_map_iff in Hrow. destruct Hrow as (raw & <- & _).
      apply Forall_forall. intros z Hz.
      apply in_map_iff in Hz. destruct Hz as (r & <- & _).
      apply clip_range. lra.
    + now rewrite length_map.
    + apply Forall_forall. intros row Hrow.
      apply in_map_iff in Hrow. destruct Hrow as (raw & <- & Hraw).
      rewrite length_map. rewrite Forall_forall in Hcols.
      now apply Hcols.
Qed.

(** ** The theorems at concrete grids *)

(** A two-node reference edge from 25 m to 175 m over a four-mile wide
    region. *)
Lemma sloping_scan_axis :
  scan_axis [[0; 4]] [[25; 175]] [0; 4] [25; 175].
Proof.
  constructor; try reflexivity; [discriminate|].
  repeat constructor. lra.
Qed.

Lemma flat_scan_axis :
  scan_axis [[0; 4]] [[25; 25]] [0; 4] [25; 25].
Proof.
  constructor; try reflexivity; [discriminate|].
  repeat constructor. lra.
Qed.


Lemma track_positions_strictly_increasing_witness :
  (forall fuel l,
      PathOptimization.optimize_track_positions fuel
        [[0; 4]] [[0; 0]] [[25; 175]] 4 1.02 = Returned l ->
      strictly_increasing l /\ NoDup l)
  /\ (Forall (fun d => 0 < d) [25; 175] -> 0 < 1.02 ->
      exists fuel l,
        PathOptimization.optimize_track_positions fuel
          [[0; 4]] [[0; 0]] [[25; 175]] 4 1.02 = Returned l).
Proof.
  apply (track_positions_strictly_increasing
           [[0; 4]] [[0; 0]] [[25; 175]] [0; 4] [25; 175] 4 1.02).
  - exact sloping_scan_axis.
  - repeat constructor; lra.
Defined.

Lemma track_list_empty_iff_witness :
  PathOptimization.optimize_track_positions 1
    [[0; 1]] [[0; 0]] [[4 * unit_depth; 4 * unit_depth]] 1 1.02
  = Returned [].
Proof.
  apply (track_list_empty_iff
           [[0; 1]] [[0; 0]] [[4 * unit_depth; 4 * unit_depth]]
           [0; 1] [4 * unit_depth; 4 * unit_depth] 1 1.02
           (4 * unit_depth));
    [reflexivity | reflexivity | reflexivity |].
  rewrite first_x_unit. lra.
Defined.

Lemma track_count_constant_depth_witness :
  exists fuel l,
    PathOptimization.optimize_track_positions fuel
      [[0; 4]] [[0; 0]] [[25; 25]] 4 1.02 = Returned l
    /\ List.length l
       = Z.to_nat (Zceil ((4 + 1e-6 - half_first_step 25) / step 25 1.02))
    /\ l = map (fun k => half_first_step 25 + INR k * step 25 1.02)
             (seq 0 (List.length l))
    /\ (half_first_step 25 < 4 + 1e-6 ->
        hd_error l = Some (half_first_step 25))
    /\ (4 + 1e-6 <= half_first_step 25 -> l = []).
Proof.
  apply (track_count_constant_depth
           [[0; 4]] [[0; 0]] [[25; 25]] [0; 4] [25; 25] 4 1.02 25).
  - exact flat_scan_axis.
  - repeat constructor.
  - lra.
  - lra.
Defined.

Lemma track_cells_cover_witness :
  exists fuel l,
    PathOptimization.optimize_track_positions fuel
      [[0; 4]] [[0; 0]] [[25; 175]] 4 1.02 = Returned l
    /\ (PathOptimization.first_x 25 < 4 + 1e-6 ->
        hd_error l = Some (PathOptimization.first_x 25)
        /\ PathOptimization.first_x 25
           - 0.5 * PathOptimization.calculate_swath_width 25 60 / 1852 = 0
        /\ forall v,
             Numpy.interp (PathOptimization.first_x 25) [0; 4] [25; 175]
             = Some v ->
             25 <= v ->
             in_footprint [0; 4] [25; 175] (PathOptimization.first_x 25) 0)
    /\ (forall p, PathOptimization.first_x 25 <= p <= 4 ->
        exists x s, In x l /\ advance [0; 4] [25; 175] 1.02 x = Some s
                    /\ x <= p < x + s).
Proof.
  apply (track_cells_cover
           [[0; 4]] [[0; 0]] [[25; 175]] [0; 4] [25; 175] 4 1.02 25).
  - exact sloping_scan_axis.
  - repeat constructor; lra.
  - lra.
  - reflexivity.
Defined.

(** * Further properties of the code *)

(** ** Where the tracks lie and how far apart *)

Section TrackGeometry.

Import PathOptimization.

Variables (x_coords top : list R) (W f : R).

Local Abbreviation loop fuel x acc :=
  (track_loop fuel x_coords top W f x acc).

(** Every recorded position passed the loop test. *)
Lemma loop_below :
  forall n x l, loop n x [] = Returned l ->
                Forall (fun y => y < W + 1e-6) l.
Proof.
  induction n as [|n IH]; intros x l Hl; [discriminate|].
  destruct (loop_returned_inv _ _ _ _ _ _ _ Hl)
    as [[_ ->]|(Hx & m & s & l' & [= ->] & Hs & Hl' & ->)];
    [constructor|].
  constructor; [assumption | exact (IH _ _ Hl')].
Qed.

(** When no advance is negative, no position lies left of the initial
    cursor. *)
Lemma loop_above :
  (forall x s, advance x_coords top f x = Some s -> 0 <= s) ->
  forall n x l, loop n x [] = Returned l -> Forall (fun y => x <= y) l.
Proof.
  intros Hadv. induction n as [|n IH]; intros x l Hl; [discriminate|].
  destruct (loop_returned_inv _ _ _ _ _ _ _ Hl)
    as [[_ ->]|(Hx & m & s & l' & [= ->] & Hs & Hl' & ->)];
    [constructor|].
  constructor; [lra|].
  eapply Forall_impl; [|exact (IH _ _ Hl')]. cbv beta.
  intros y Hy. specialize (Hadv _ _ Hs). lra.
Qed.

(** Consecutive positions are one advance apart, and the advance from
    the last one reaches the bound. *)
Lemma loop_spaced :
  forall n x l, loop n x [] = Returned l ->
    spaced x_coords top f l
    /\ (l <> [] ->
        exists s, advance x_coords top f (last l 0) = Some s
                  /\ W + 1e-6 <= last l 0 + s).
Proof.
  induction n as [|n IH]; intros x l Hl; [discriminate|].
  destruct (loop_returned_inv _ _ _ _ _ _ _ Hl)
    as [[_ ->]|(Hx & m & s & l' & [= ->] & Hs & Hl' & ->)].
  - split; [exact I | congruence].
  - destruct (IH _ _ Hl') as [Hsp Hlast].
    destruct (loop_returned_inv _ _ _ _ _ _ _ Hl')
      as [[Hge ->]|(Hx' & _ & _ & l'' & _ & _ & _ & ->)].
    + split; [exact I|]. intros _. exists s. now split.
    + split.
      * split; [|exact Hsp]. rewrite Hs. f_equal. lra.
      * intros _. destruct Hlast as (t & Ht & Hge); [discriminate|].
        exists t. now split.
Qed.

(** Bounds on the advance bound the number of positions. *)
Lemma loop_length_bounds (lo hi : R) :
  0 < lo ->
  (forall x, exists s, advance x_coords top f x = Some s /\ lo <= s <= hi) ->
  forall n x l, loop n x [] = Returned l -> x < W + 1e-6 ->
    x + (INR (List.length l) - 1) * lo < W + 1e-6
    <= x + INR (List.length l) * hi.
Proof.
  intros Hlo Hadv. induction n as [|n IH]; intros x l Hl Hx;
    [discriminate|].
  destruct (loop_returned_inv _ _ _ _ _ _ _ Hl)
    as [[Hge _]|(_ & m & s & l' & [= ->] & Hs & Hl' & ->)]; [lra|].
  destruct (Hadv x) as (s' & Hs' & Hb). rewrite Hs in Hs'.
  injection Hs' as <-.
  cbn [List.length]. rewrite S_INR.
  destruct (loop_returned_inv _ _ _ _ _ _ _ Hl')
    as [[Hge ->]|(Hx' & _)].
  - simpl. lra.
  - specialize (IH _ _ Hl' Hx').
    assert (0 <= INR (List.length l')) by apply pos_INR.
    nra.
Qed.

End TrackGeometry.

Lemma Zceil_le_of_le (r : R) (z : Z) : r <= IZR z -> (Zceil r <= z)%Z.
Proof.
  intros H. pose proof (Zceil_bound r) as [Hlt _].
  assert (IZR (Zceil r) - 1 < IZR z) by lra.
  apply Z.lt_succ_r. apply lt_IZR. rewrite succ_IZR. lra.
Qed.

Lemma Zceil_ge_of_lt (r : R) (z : Z) : IZR z - 1 < r -> (z <= Zceil r)%Z.
Proof.
  intros H. pose proof (Zceil_bound r) as [_ Hle].
  assert (IZR z - 1 < IZR (Zceil r)) by lra.
  apply Z.lt_succ_r. apply lt_IZR. rewrite succ_IZR. lra.
Qed.

Lemma advance_between (x_coords top : list R) (f dmin dmax : R) :
  List.length x_coords = List.length top -> top <> [] ->
  Forall (fun d => dmin <= d <= dmax) top -> 0 <= f ->
  forall x, exists s,
    advance x_coords top f x = Some s /\ step dmin f <= s <= step dmax f.
Proof.
  intros Hlen Hne Hall Hf x.
  destruct (interp_between dmin dmax x x_coords top Hlen Hne Hall)
    as (v & Hv & Hb).
  unfold advance, step. rewrite Hv. eexists; split; [reflexivity|].
  pose proof (swath_default_le dmin v (proj1 Hb)) as H1.
  pose proof (swath_default_le v dmax (proj2 Hb)) as H2.
  unfold PathOptimization.default_beam_angle_deg in *.
  split; apply Rmult_le_compat_r; try lra; nra.
Qed.

Section TrackFacts.

Import PathOptimization.

Variables (X Y bathymetry_data : array2) (x_coords top : list R).
Variables (W f d0 : R).
Hypothesis Hcorner : corner bathymetry_data = Some d0.
Hypothesis HX : row0 X = Some x_coords.
Hypothesis Htop : row0 bathymetry_data = Some top.

(** Every returned track position lies below [W + 1e-6], whatever the
    grid; and when the reference-edge depths and the spacing factor are
    non-negative none lies left of the first cursor, which is itself
    non-negative. *)
Theorem track_positions_within_region (fuel : nat) (l : list R) :
  optimize_track_positions fuel X Y bathymetry_data W f = Returned l ->
  Forall (fun x => x < W + 1e-6) l
  /\ (Forall (fun d => 0 <= d) top -> 0 <= f ->
      0 <= first_x d0 /\ Forall (fun x => first_x d0 <= x) l).
Proof.
  intros Hl. rewrite (optimize_unfold _ _ _ _ _ _ _ _ _ Hcorner HX Htop) in Hl.
  split; [exact (loop_below _ _ _ _ _ _ _ Hl)|].
  intros Hpos Hf. split.
  - destruct (corner_row0 _ _ Hcorner) as (r & Hr). rewrite Htop in Hr.
    injection Hr as ->. inversion Hpos as [|? ? Hd0 _]; subst.
    pose proof (swath_default_nonneg d0 Hd0).
    unfold first_x, NM_TO_M. lra.
  - refine (loop_above _ _ _ _ _ _ _ _ Hl).
    intros x s Hs. now apply (advance_sign _ _ _ _ _ Hpos Hs).
Qed.


(** A grid without cells in its first row, or an [X] without rows,
    makes the call raise; so does, once the loop is entered, a scan axis
    whose length differs from that of the reference edge. *)
Theorem optimize_track_positions_raises (fuel : nat) :
  List.length x_coords <> List.length top ->
  first_x d0 < W + 1e-6 ->
  optimize_track_positions (S fuel) X Y bathymetry_data W f = Raised
  /\ optimize_track_positions fuel X Y [] W f = Raised
  /\ optimize_track_positions fuel X Y ([] :: bathymetry_data) W f = Raised
  /\ optimize_track_positions fuel [] Y bathymetry_data W f = Raised.
Proof.
  intros Hlen Hx. split; [|split; [|split]].
  - rewrite (optimize_unfold _ _ _ _ _ _ _ _ _ Hcorner HX Htop).
    simpl. destruct (Rlt_dec (first_x d0) (W + 1e-6)); [|contradiction].
    unfold Numpy.interp.
    destruct (Nat.eqb (List.length x_coords) (List.length top)) eqn:E;
      [apply Nat.eqb_eq in E; contradiction | reflexivity].
  - reflexivity.
  - reflexivity.
  - unfold optimize_track_positions. now rewrite Hcorner.
Qed.

End TrackFacts.

Section TrackCount.

Import PathOptimization.

Variables (X Y bathymetry_data : array2) (x_coords top : list R).
Variables (W f : R).

Lemma edge_count_between (d0 dmin dmax : R) :
  scan_axis X bathymetry_data x_coords top ->
  corner bathymetry_data = Some d0 ->
  Forall (fun d => dmin <= d <= dmax) top ->
  0 < dmin -> 0 < f ->
  exists fuel l,
    optimize_track_positions fuel X Y bathymetry_data W f = Returned l
    /\ (Zceil ((W + 1e-6 - first_x d0) / step dmax f)
        <= Z.of_nat (List.length l)
        <= Z.max 0 (Zceil ((W + 1e-6 - first_x d0) / step dmin f)))%Z.
Proof.
  intros Hax Hc Hall Hdmin Hf.
  assert (Hpos : Forall (fun d => 0 < d) top).
  { eapply Forall_impl; [|exact Hall]. cbv beta. intros d Hd. lra. }
  destruct (positive_edge_returns X Y bathymetry_data x_coords top W f
              Hax Hpos Hf) as (n & l & Hl & _).
  exists n, l. split; [assumption|].
  rewrite (optimize_unfold _ _ _ _ _ _ _ _ _ Hc (axis_row _ _ _ _ Hax)
             (axis_top _ _ _ _ Hax)) in Hl.
  assert (Hlo : 0 < step dmin f).
  { unfold step. pose proof (swath_default_pos dmin Hdmin) as Hsw.
    unfold default_beam_angle_deg in Hsw.
    apply Rdiv_lt_0_compat; [nra | lra]. }
  pose proof (advance_between x_coords top f dmin dmax
                (axis_length _ _ _ _ Hax) (axis_nonempty _ _ _ _ Hax)
                Hall (Rlt_le _ _ Hf)) as Hadv.
  assert (Hhi : step dmin f <= step dmax f).
  { destruct (Hadv 0) as (s & _ & Hs). lra. }
  destruct (Rlt_dec (first_x d0) (W + 1e-6)) as [Hx|Hx].
  - pose proof (loop_length_bounds _ _ _ _ _ _ Hlo Hadv _ _ _ Hl Hx)
      as [Hup Hdown].
    rewrite INR_IZR_INZ in Hup, Hdown. split.
    + apply Zceil_le_of_le.
      apply (Rmult_le_reg_r (step dmax f)); [lra|].
      unfold Rdiv. rewrite Rmult_assoc, Rinv_l by lra. lra.
    + apply Z.max_le_iff. right. apply Zceil_ge_of_lt.
      apply (Rmult_lt_reg_r (step dmin f)); [lra|].
      unfold Rdiv. rewrite Rmult_assoc, Rinv_l by lra. lra.
  - destruct (loop_returned_inv _ _ _ _ _ _ _ Hl)
      as [[_ ->]|(Hx' & _)]; [|contradiction].
    simpl. split; [|lia].
    apply Zceil_le_of_le.
    apply (Rmult_le_reg_r (step dmax f)); [lra|].
    unfold Rdiv. rewrite Rmult_assoc, Rinv_l by lra. lra.
Qed.

(** On a grid whose reference-edge depths lie between [dmin > 0] and
    [dmax], with a positive spacing factor, the call returns and the
    number of tracks lies between the count for a flat grid of depth
    [dmax] and the count for a flat grid of depth [dmin], both started
    at the actual first cursor. *)
Theorem track_count_bounds (d0 dmin dmax : R) :
  scan_axis X bathymetry_data x_coords top ->
  corner bathymetry_data = Some d0 ->
  Forall (fun d => dmin <= d <= dmax) top ->
  0 < dmin -> 0 < f ->
  exists fuel l,
    optimize_track_positions fuel X Y bathymetry_data W f = Returned l
    /\ (Zceil ((W + 1e-6 - first_x d0) / step dmax f)
        <= Z.of_nat (List.length l)
        <= Z.max 0 (Zceil ((W + 1e-6 - first_x d0) / step dmin f)))%Z.
Proof. exact (edge_count_between d0 dmin dmax). Qed.

End TrackCount.

(** ** The generated grid as input of the placement *)

Section GeneratedGrid.

Import BathymetrySimulation.

Lemma linspace_cons (start stop : R) (m : nat) :
  Numpy.linspace start stop (S m)
  = (start + INR 0 * ((stop - start) / INR (S m - 1)))
    :: map (fun i => start + INR i * ((stop - start) / INR (S m - 1)))
         (seq 1 m).
Proof. reflexivity. Qed.

Lemma affine_seq_sorted (start h : R) (k : nat) :
  0 < h ->
  forall a, Sorted Rlt (map (fun i => start + INR i * h) (seq a k)).
Proof.
  intros Hh. induction k as [|k IH]; intros a; [constructor|].
  cbn [seq map]. constructor; [apply IH|].
  destruct k as [|k]; cbn [seq map]; [constructor|].
  constructor. rewrite S_INR. nra.
Qed.

(** [linspace] is strictly increasing when [start < stop]. *)
Lemma linspace_sorted (start stop : R) (n : nat) :
  start < stop -> (2 <= n)%nat ->
  Sorted Rlt (Numpy.linspace start stop n).
Proof.
  intros Hlt Hn. unfold Numpy.linspace. apply affine_seq_sorted.
  apply Rdiv_lt_0_compat; [lra | apply lt_0_INR; lia].
Qed.

Lemma map2_const {A B C : Type} (g : A -> B -> C) (x : list A) (b : B) :
  map2 g x (map (fun _ => b) x) = map (fun a => g a b) x.
Proof.
  unfold map2. induction x as [|a x IH]; simpl; [reflexivity|].
  now rewrite IH.
Qed.

(** The first rows of the arrays computed from a mesh. *)
Lemma mesh_first_rows (g : R -> R -> R) (x : list R) (y0 : R) (y' : list R) :
  PathOptimization.row0 (fst (Numpy.meshgrid x (y0 :: y'))) = Some x
  /\ PathOptimization.row0
       (array_map2 g (fst (Numpy.meshgrid x (y0 :: y')))
          (snd (Numpy.meshgrid x (y0 :: y'))))
     = Some (map (fun a => g a y0) x).
Proof.
  split; [reflexivity|].
  unfold array_map2, Numpy.meshgrid. simpl. now rewrite map2_const.
Qed.

Lemma sin_at_zero (c : R) : sin (2 * PI * 0 / c) = 0.
Proof.
  replace (2 * PI * 0 / c) with 0 by (unfold Rdiv; ring). exact sin_0.
Qed.

(** Along the northern edge the depth lies between 25 and 125. *)
Lemma depth_cell_top_edge (x : R) :
  0 <= x <= 4 -> 25 <= depth_cell 4 5 x 0 <= 125.
Proof.
  intros Hx. split; [apply depth_cell_lower; lra|].
  unfold depth_cell.
  rewrite !sin_at_zero.
  pose proof (SIN_bound (2 * PI * x / 4)).
  pose proof (SIN_bound (2 * PI * x / (0.3 * 4))).
  lra.
Qed.

(** Over the whole region the depth does not exceed 218. *)
Lemma depth_cell_upper (x y : R) :
  0 <= x <= 4 -> 0 <= y <= 5 -> depth_cell 4 5 x y <= 218.
Proof.
  intros Hx Hy. unfold depth_cell.
  pose proof (SIN_bound (2 * PI * x / 4)).
  pose proof (SIN_bound (2 * PI * x / (0.3 * 4))).
  pose proof (SIN_bound (2 * PI * y / 5)).
  pose proof (SIN_bound (2 * PI * y / (0.7 * 5))).
  lra.
Qed.

Lemma depth_cell_corner : depth_cell 4 5 0 0 = 25.
Proof.
  unfold depth_cell.
  rewrite !sin_at_zero. lra.
Qed.

(** The grid of [generate_bathymetry_data] is a well-formed input of
    the placement: its scan axis is [linspace 0 4 400], its reference
    edge has depths between 25 and 125, and its corner depth is 25. *)
Lemma generated_grid_axis :
  let g := generate_bathymetry_data in
  exists top,
    scan_axis (fst (fst (fst (fst g)))) (snd (fst (fst g)))
      (Numpy.linspace 0 4 400) top
    /\ Forall (fun d => 25 <= d <= 125) top
    /\ PathOptimization.corner (snd (fst (fst g))) = Some 25.
Proof.
  cbv zeta. unfold generate_bathymetry_data. cbv zeta. cbn [fst snd].
  change 500%nat with (S 499). rewrite (linspace_cons 0 5 499).
  replace (0 + INR 0 * ((5 - 0) / INR (500 - 1))) with 0
    by (simpl INR at 1; lra).
  set (x := Numpy.linspace 0 4 400).
  set (y' := map _ (seq 1 499)).
  destruct (mesh_first_rows (depth_cell 4 5) x 0 y') as [HX Htop].
  exists (map (fun a => depth_cell 4 5 a 0) x).
  assert (Hrange : Forall (fun v => 0 <= v <= 4) x)
    by (apply linspace_range; [lra | lia]).
  split; [|split].
  - constructor.
    + exact HX.
    + exact Htop.
    + now rewrite length_map.
    + unfold x. change 400%nat with (S 399).
      rewrite linspace_cons. discriminate.
    + apply linspace_sorted; [lra | lia].
  - apply Forall_forall. intros d Hd.
    apply in_map_iff in Hd. destruct Hd as (a & <- & Ha).
    rewrite Forall_forall in Hrange.
    apply depth_cell_top_edge. now apply Hrange.
  - unfold x. change 400%nat with (S 399). rewrite linspace_cons.
    replace (0 + INR 0 * ((4 - 0) / INR (S 399 - 1))) with 0
      by (simpl INR at 1; lra).
    unfold array_map2, map2, Numpy.meshgrid. simpl.
    now rewrite depth_cell_corner.
Qed.

End GeneratedGrid.

(** ** The runs of the two numbered scripts *)

Lemma sqrt3_bounds : 1.732 < sqrt 3 < 1.7321.
Proof.
  pose proof sqrt3_pos as Hpos.
  pose proof (sqrt_sqrt 3 ltac:(lra)) as Hsq.
  split; nra.
Qed.

Lemma quotient_between (a b N D : R) :
  0 < D -> a * D < N -> N <= b * D -> a < N / D <= b.
Proof.
  intros HD Ha Hb. split.
  - apply (Rmult_lt_reg_r D); [assumption|].
    unfold Rdiv. rewrite Rmult_assoc, Rinv_l by lra. lra.
  - apply (Rmult_le_reg_r D); [assumption|].
    unfold Rdiv. rewrite Rmult_assoc, Rinv_l by lra. lra.
Qed.

Lemma fold_right_Rmin_le (a : R) (l : list R) :
  fold_right Rmin a l <= a /\ Forall (fun x => fold_right Rmin a l <= x) l.
Proof.
  induction l as [|b l [IHa IHl]]; simpl; [split; [lra | constructor]|].
  pose proof (Rmin_l b (fold_right Rmin a l)).
  pose proof (Rmin_r b (fold_right Rmin a l)).
  split; [lra|]. constructor; [assumption|].
  eapply Forall_impl; [|exact IHl]. cbv beta. intros x Hx. lra.
Qed.

Lemma fold_right_Rmin_in (a : R) (l : list R) :
  fold_right Rmin a l = a \/ In (fold_right Rmin a l) l.
Proof.
  induction l as [|b l IH]; simpl; [now left|].
  destruct (Rle_dec b (fold_right Rmin a l)) as [Hle|Hgt].
  - rewrite Rmin_left by assumption. right. now left.
  - rewrite Rmin_right by lra.
    destruct IH as [IH|IH]; [now left | right; now right].
Qed.

(** [amin] returns a cell that no cell is below. *)
Lemma amin_spec (l : list R) (m : R) :
  Numpy.amin l = Some m -> In m l /\ Forall (fun x => m <= x) l.
Proof.
  destruct l as [|a l]; [discriminate|]. simpl. intros [= <-].
  destruct (fold_right_Rmin_le a l) as [Ha Hl]. split.
  - destruct (fold_right_Rmin_in a l) as [->|Hin]; [now left | now right].
  - now constructor.
Qed.

Lemma amin_some (l : list R) : l <> [] -> exists m, Numpy.amin l = Some m.
Proof. destruct l; [congruence | intros _; eexists; reflexivity]. Qed.

(** The mean of cells within bounds lies within the bounds. *)
Lemma sum_between (lo hi : R) (l : list R) :
  Forall (fun x => lo <= x <= hi) l ->
  INR (List.length l) * lo <= Numpy.sum l <= INR (List.length l) * hi.
Proof.
  induction 1 as [|x l Hx _ IH]; [simpl; lra|].
  cbn [List.length]. rewrite S_INR. unfold Numpy.sum in *. simpl. lra.
Qed.

Lemma mean_between (lo hi : R) (l : list R) :
  l <> [] -> Forall (fun x => lo <= x <= hi) l ->
  lo <= Numpy.mean l <= hi.
Proof.
  intros Hne Hall. pose proof (sum_between lo hi l Hall) as Hs.
  assert (Hn : 0 < INR (List.length l)).
  { apply lt_0_INR. destruct l; [congruence | simpl; lia]. }
  unfold Numpy.mean. split.
  - apply (Rmult_le_reg_r (INR (List.length l))); [assumption|].
    unfold Rdiv. rewrite Rmult_assoc, Rinv_l by lra. lra.
  - apply (Rmult_le_reg_r (INR (List.length l))); [assumption|].
    unfold Rdiv. rewrite Rmult_assoc, Rinv_l by lra. lra.
Qed.

Lemma all_cells_ravel (P : R -> Prop) (a : array2) :
  all_cells P a -> Forall P (Numpy.ravel a).
Proof.
  unfold all_cells, Numpy.ravel. induction 1 as [|r a Hr _ IH]; simpl;
    [constructor|]. apply Forall_app. now split.
Qed.

Lemma corner_ravel (a : array2) (d : R) :
  PathOptimization.corner a = Some d -> In d (Numpy.ravel a).
Proof.
  destruct a as [|[|d' r] a]; simpl; try discriminate.
  intros [= ->]. now left.
Qed.

(** All cells of the generated grid lie between 25 and 218. *)
Lemma generated_grid_range :
  all_cells (fun d => 25 <= d <= 218)
    (snd (fst (fst BathymetrySimulation.generate_bathymetry_data))).
Proof.
  unfold BathymetrySimulation.generate_bathymetry_data. cbv zeta.
  cbn [fst snd]. apply mesh_cells. intros a b Ha Hb.
  pose proof (linspace_range 4 400 ltac:(lra) ltac:(lia)) as Hx.
  pose proof (linspace_range 5 500 ltac:(lra) ltac:(lia)) as Hy.
  rewrite Forall_forall in Hx, Hy.
  split; [apply depth_cell_lower | apply depth_cell_upper];
    (now apply Hx) || (now apply Hy).
Qed.

(** The shallowest cell of the generated grid is the north-west corner,
    at 25. *)
Lemma generated_grid_min :
  Numpy.amin
    (Numpy.ravel (snd (fst (fst BathymetrySimulation.generate_bathymetry_data))))
  = Some 25.
Proof.
  destruct generated_grid_axis as (top & _ & _ & Hc). cbv zeta in Hc.
  pose proof (corner_ravel _ _ Hc) as Hin.
  pose proof (all_cells_ravel _ _ generated_grid_range) as Hall.
  destruct (amin_some
              (Numpy.ravel
                 (snd (fst (fst BathymetrySimulation.generate_bathymetry_data)))))
    as (m & Hm).
  { intros E. rewrite E in Hin. contradiction. }
  rewrite Hm. f_equal.
  destruct (amin_spec _ _ Hm) as [Hmin Hle].
  rewrite Forall_forall in Hall, Hle.
  specialize (Hall m Hmin). specialize (Hle 25 Hin). lra.
Qed.

(** The grid of [01_bathymetry_simulation.py]: every depth lies between
    25 and 218, the shallowest depth is exactly 25 and sits at the
    north-west corner, the scan axis [X[0, :]] is the strictly
    increasing [linspace 0 4 400], and the region is 4 by 5. *)
Theorem generated_grid_profile :
  let g := BathymetrySimulation.generate_bathymetry_data in
  let X := fst (fst (fst (fst g))) in
  let bathymetry_data := snd (fst (fst g)) in
  all_cells (fun d => 25 <= d <= 218) bathymetry_data
  /\ Numpy.amin (Numpy.ravel bathymetry_data) = Some 25
  /\ PathOptimization.corner bathymetry_data = Some 25
  /\ PathOptimization.row0 X = Some (Numpy.linspace 0 4 400)
  /\ Sorted Rlt (Numpy.linspace 0 4 400)
  /\ snd (fst g) = 4 /\ snd g = 5.
Proof.
  cbv zeta. destruct generated_grid_axis as (top & Hax & _ & Hc).
  cbv zeta in Hax, Hc.
  split; [exact generated_grid_range|].
  split; [exact generated_grid_min|].
  split; [exact Hc|].
  split; [exact (axis_row _ _ _ _ Hax)|].
  split; [exact (axis_sorted _ _ _ _ Hax)|].
  split; reflexivity.
Qed.

Lemma first_x_25 : PathOptimization.first_x 25 = 25 * sqrt 3 / 1852.
Proof.
  unfold PathOptimization.first_x. rewrite swath_default.
  unfold PathOptimization.NM_TO_M. lra.
Qed.

Lemma step_default (D : R) : step D 1.02 = 2.04 * D * sqrt 3 / 1852.
Proof.
  unfold step.
  pose proof (swath_default D) as Hsw.
  unfold PathOptimization.default_beam_angle_deg in Hsw. rewrite Hsw. lra.
Qed.

(** [main()] of [02_path_optimization.py]: on the generated grid the
    placement returns; the reported coverage pair is
    [(99.786, 100 - 99.786)]; the first track lies at
    [25 * sqrt 3 / 1852], within [1e-4] of 0.0234 nautical miles; the
    tracks are strictly increasing and lie strictly between 0 and
    [4 + 1e-6]; and there are between 17 and 84 of them. *)
Theorem path_optimization_main_run :
  exists fuel tracks,
    PathOptimizationMain.main fuel
    = Returned (tracks, 99.786, 100 - 99.786)
    /\ hd_error tracks = Some (25 * sqrt 3 / 1852)
    /\ Rabs (25 * sqrt 3 / 1852 - 0.0234) < 1e-4
    /\ strictly_increasing tracks
    /\ Forall (fun x => 0 < x < 4 + 1e-6) tracks
    /\ (17 <= List.length tracks <= 84)%nat.
Proof.
  destruct generated_grid_axis as (top & Hax & Hall & Hc).
  cbv zeta in Hax, Hc.
  pose proof sqrt3_bounds as Hs3.
  assert (Hall' : Forall (fun d => 25 <= d <= 125) top) by exact Hall.
  destruct (edge_count_between _
              (snd (fst (fst (fst
                 BathymetrySimulation.generate_bathymetry_data))))
              _ _ _ 4 1.02 25 25 125 Hax Hc Hall'
              ltac:(lra) ltac:(lra)) as (fuel & l & Hl & Hcount).
  exists fuel, l.
  assert (Hrun : PathOptimizationMain.main fuel
                 = Returned (l, 99.786, 100 - 99.786)).
  { unfold PathOptimizationMain.main. cbv zeta.
    change (snd (fst BathymetrySimulation.generate_bathymetry_data))
      with 4.
    unfold PathOptimization.default_spacing_factor. rewrite Hl.
    reflexivity. }
  split; [exact Hrun|].
  rewrite (optimize_unfold _ _ _ _ _ _ _ _ _ Hc (axis_row _ _ _ _ Hax)
             (axis_top _ _ _ _ Hax)) in Hl.
  assert (Hx0 : PathOptimization.first_x 25 < 4 + 1e-6)
    by (rewrite first_x_25; lra).
  assert (Hnonneg : Forall (fun d => 0 <= d) top).
  { eapply Forall_impl; [|exact Hall]. cbv beta. intros d Hd. lra. }
  assert (Hadv : forall x s, advance (Numpy.linspace 0 4 400) top 1.02 x
                             = Some s -> 0 <= s).
  { intros x s Hs. apply (advance_sign _ _ _ _ _ Hnonneg Hs). lra. }
  split; [|split; [|split; [|split]]].
  - destruct (loop_head _ _ _ _ _ _ _ Hl Hx0) as (l' & ->).
    simpl. now rewrite first_x_25.
  - apply Rabs_def1; lra.
  - exact (loop_increasing _ _ _ _ Hadv _ _ _ Hl).
  - pose proof (loop_below _ _ _ _ _ _ _ Hl) as Hbelow.
    pose proof (loop_above _ _ _ _ Hadv _ _ _ Hl) as Habove.
    rewrite first_x_25 in Habove.
    rewrite Forall_forall in *. intros x Hx.
    specialize (Hbelow x Hx). specialize (Habove x Hx). cbv beta in *.
    lra.
  - rewrite first_x_25, !step_default in Hcount.
    rewrite (Zceil_eq 17) in Hcount.
    2:{ apply quotient_between; lra. }
    rewrite (Zceil_eq 84) in Hcount.
    2:{ apply quotient_between; lra. }
    lia.
Qed.

(** ** The fixed-spacing baseline *)

Section Baseline.

Import PerformanceComparison.

Lemma comparison_swath_default (d : R) :
  calculate_swath_width d 60.0 = 2 * d * sqrt 3.
Proof.
  unfold calculate_swath_width.
  replace (Numpy.deg2rad 60.0) with (PI / 3)
    by (unfold Numpy.deg2rad; lra).
  now rewrite tan_PI3.
Qed.

(** The record the baseline computes from the shallowest and the mean
    depth. *)
Lemma baseline_metrics_value (data : array2) (W H D_min : R) :
  Numpy.amin (Numpy.ravel data) = Some D_min ->
  calculate_baseline_metrics data W H
  = Returned
      (mkPerformanceMetrics
         (IZR (Zceil (W * 1852 / (0.9 * (2 * D_min * sqrt 3)))) * H)
         0.100
         ((1 - 0.9 * (2 * D_min * sqrt 3)
               / (2 * Numpy.mean (Numpy.ravel data) * sqrt 3)) * 100)).
Proof.
  intros Hmin. unfold calculate_baseline_metrics. rewrite Hmin.
  cbv zeta. now rewrite !comparison_swath_default.
Qed.

(** The overlap of the baseline, from the ratio of the shallowest to the
    mean depth. *)
Lemma baseline_overlap_between (D_min D_avg lo hi : R) :
  0 < D_min -> D_min <= D_avg ->
  0 < lo -> lo * D_avg <= D_min -> D_min <= hi * D_avg ->
  (1 - 0.9 * hi) * 100
  <= (1 - 0.9 * (2 * D_min * sqrt 3) / (2 * D_avg * sqrt 3)) * 100
  <= (1 - 0.9 * lo) * 100.
Proof.
  intros Hmin Havg Hlo Hl Hh. pose proof sqrt3_pos as Hs.
  replace (0.9 * (2 * D_min * sqrt 3) / (2 * D_avg * sqrt 3))
    with (0.9 * (D_min / D_avg)) by (field; lra).
  assert (Hr : lo <= D_min / D_avg <= hi).
  { split.
    - apply (Rmult_le_reg_r D_avg); [lra|].
      unfold Rdiv. rewrite Rmult_assoc, Rinv_l by lra. lra.
    - apply (Rmult_le_reg_r D_avg); [lra|].
      unfold Rdiv. rewrite Rmult_assoc, Rinv_l by lra. lra. }
  lra.
Qed.

Lemma baseline_metrics_profile (data : array2) (W H : R) :
  all_cells (fun d => 0 < d) data -> Numpy.ravel data <> [] -> 0 < W ->
  exists D_min m n,
    Numpy.amin (Numpy.ravel data) = Some D_min
    /\ calculate_baseline_metrics data W H = Returned m
    /\ gap_percentage m = 0.1
    /\ 10 <= overlap_percentage m < 100
    /\ path_length_nm m = IZR n * H
    /\ (1 <= n)%Z
    /\ IZR (n - 1) * (0.9 * calculate_swath_width D_min 60.0)
       < W * 1852
       <= IZR n * (0.9 * calculate_swath_width D_min 60.0).
Proof.
  intros Hpos Hne HW.
  destruct (amin_some _ Hne) as (D_min & Hmin).
  destruct (amin_spec _ _ Hmin) as [Hin Hle].
  pose proof (all_cells_ravel _ _ Hpos) as Hall.
  assert (HD : 0 < D_min) by (rewrite Forall_forall in Hall; now apply Hall).
  destruct (list_bounds _ Hne) as (lo & hi & _ & Hb).
  assert (Hrange : Forall (fun x => D_min <= x <= hi) (Numpy.ravel data)).
  { rewrite Forall_forall in *. intros x Hx.
    specialize (Hle x Hx). specialize (Hb x Hx). cbv beta in *. lra. }
  pose proof (mean_between _ _ _ Hne Hrange) as [Havg _].
  set (D_avg := Numpy.mean (Numpy.ravel data)) in *.
  pose proof sqrt3_pos as Hs.
  set (d_fixed := 0.9 * (2 * D_min * sqrt 3)).
  assert (Hd : 0 < d_fixed) by (unfold d_fixed; nra).
  exists D_min. eexists. exists (Zceil (W * 1852 / d_fixed)).
  split; [exact Hmin|].
  split; [exact (baseline_metrics_value data W H D_min Hmin)|].
  cbn [gap_percentage overlap_percentage path_length_nm].
  split; [lra|]. split; [|split; [reflexivity|]].
  - fold D_avg.
    assert (Hq : 0 < D_min / D_avg) by (apply Rdiv_lt_0_compat; lra).
    pose proof (baseline_overlap_between D_min D_avg (D_min / D_avg) 1
                  HD Havg Hq) as Hb'.
    replace (D_min / D_avg * D_avg) with D_min in Hb' by (field; lra).
    specialize (Hb' ltac:(lra) ltac:(lra)). lra.
  - rewrite comparison_swath_default. fold d_fixed.
    pose proof (Zceil_bound (W * 1852 / d_fixed)) as [Hlt Hge].
    assert (Hquot : 0 < W * 1852 / d_fixed)
      by (apply Rdiv_lt_0_compat; lra).
    assert (HWd : W * 1852 / d_fixed * d_fixed = W * 1852)
      by (field; lra).
    split; [|split].
    + apply Z.lt_pred_le. apply lt_IZR. simpl. lra.
    + rewrite minus_IZR. nra.
    + nra.
Qed.

(** On a grid of positive depths with at least one cell, and a positive
    region width, [calculate_baseline_metrics] returns a record whose
    gap is 0.1 and whose average overlap lies between 10 and 100
    percent; its path length is [n] lines of the region height, where
    [n >= 1] lines at the fixed spacing (0.9 of the swath at the
    shallowest depth) span the region width and [n - 1] lines do not. *)
Theorem baseline_metrics_bounds (data : array2) (W H : R) :
  all_cells (fun d => 0 < d) data -> Numpy.ravel data <> [] -> 0 < W ->
  exists D_min m n,
    Numpy.amin (Numpy.ravel data) = Some D_min
    /\ calculate_baseline_metrics data W H = Returned m
    /\ gap_percentage m = 0.1
    /\ 10 <= overlap_percentage m < 100
    /\ path_length_nm m = IZR n * H
    /\ (1 <= n)%Z
    /\ IZR (n - 1) * (0.9 * calculate_swath_width D_min 60.0)
       < W * 1852
       <= IZR n * (0.9 * calculate_swath_width D_min 60.0).
Proof. exact (baseline_metrics_profile data W H). Qed.

(** [calculate_baseline_metrics] raises exactly when the grid has no
    cell. *)
Theorem baseline_metrics_raises_iff (data : array2) (W H : R) :
  calculate_baseline_metrics data W H = Raised <-> Numpy.ravel data = [].
Proof.
  unfold calculate_baseline_metrics. split.
  - destruct (Numpy.ravel data) as [|a l]; [reflexivity|].
    simpl. discriminate.
  - intros ->. reflexivity.
Qed.

End Baseline.

(** ** The improvement percentages *)

Section Improvements.

Import PerformanceComparison.

Lemma improvements_value (hybrid baseline : PerformanceMetrics) :
  path_length_nm baseline <> 0 -> overlap_percentage baseline <> 0 ->
  calculate_improvements hybrid baseline
  = Returned
      [("length"%string,
        (path_length_nm baseline - path_length_nm hybrid)
        / path_length_nm baseline * 100);
       ("overlap"%string,
        (overlap_percentage baseline - overlap_percentage hybrid)
        / overlap_percentage baseline * 100)].
Proof.
  intros Hp Ho. unfold calculate_improvements, true_div.
  destruct (Req_dec_T (path_length_nm baseline) 0); [contradiction|].
  destruct (Req_dec_T (overlap_percentage baseline) 0); [contradiction|].
  reflexivity.
Qed.


(** For a baseline with a positive path length and a non-zero overlap
    the length improvement [p] inverts to the hybrid path length,
    [hybrid = baseline * (1 - p / 100)]; it is positive exactly when the
    hybrid path is shorter, zero exactly when the two are equal, and at
    most 100 exactly when the hybrid path length is not negative. *)
Theorem length_improvement_inverse (hybrid baseline : PerformanceMetrics) :
  0 < path_length_nm baseline -> overlap_percentage baseline <> 0 ->
  exists d p,
    calculate_improvements hybrid baseline = Returned d
    /\ get "length" d = Some p
    /\ path_length_nm hybrid = path_length_nm baseline * (1 - p / 100)
    /\ (0 < p <-> path_length_nm hybrid < path_length_nm baseline)
    /\ (p = 0 <-> path_length_nm hybrid = path_length_nm baseline)
    /\ (p <= 100 <-> 0 <= path_length_nm hybrid).
Proof.
  intros Hb Ho.
  rewrite (improvements_value hybrid baseline ltac:(lra) Ho).
  eexists. eexists. split; [reflexivity|]. split; [reflexivity|].
  set (b := path_length_nm baseline) in *.
  set (h := path_length_nm hybrid).
  assert (Hq : (b - h) / b * b = b - h) by (field; lra).
  set (q := (b - h) / b) in *.
  split; [nra|]. split; [|split]; split; intros; nra.
Qed.

Lemma length_improvement_inverse_witness :
  exists d p,
    calculate_improvements (get_hybrid_metrics tt)
      (mkPerformanceMetrics 480 0.1 80) = Returned d
    /\ get "length" d = Some p
    /\ path_length_nm (get_hybrid_metrics tt)
       = 480 * (1 - p / 100).
Proof.
  destruct (length_improvement_inverse (get_hybrid_metrics tt)
              (mkPerformanceMetrics 480 0.1 80))
    as (d & p & Hd & Hp & Hinv & _); [simpl; lra | simpl; lra |].
  exists d, p. repeat split; assumption.
Defined.

End Improvements.

(** [main()] of [03_performance_comparison.py]: the baseline on the
    generated grid has 96 lines, that is a path of 480 nautical miles,
    a gap of 0.1 and an average overlap between 10 and 90 percent; the
    length improvement of the hybrid record is exactly 62.5 percent and
    the overlap improvement lies between -50 and 84 percent. *)
Theorem performance_comparison_main_run :
  exists baseline improvements overlap_gain,
    PerformanceComparison.main tt
    = Returned (PerformanceComparison.get_hybrid_metrics tt, baseline,
                improvements)
    /\ PerformanceComparison.path_length_nm baseline = 96 * 5
    /\ PerformanceComparison.gap_percentage baseline = 0.1
    /\ 10 <= PerformanceComparison.overlap_percentage baseline <= 90
    /\ PerformanceComparison.get "length" improvements = Some 62.5
    /\ PerformanceComparison.get "overlap" improvements = Some overlap_gain
    /\ -50 <= overlap_gain <= 84.
Proof.
  pose proof sqrt3_bounds as Hs3.
  pose proof generated_grid_min as Hmin.
  pose proof (all_cells_ravel _ _ generated_grid_range) as Hrange.
  set (data := snd (fst (fst BathymetrySimulation.generate_bathymetry_data)))
    in *.
  assert (Hne : Numpy.ravel data <> []).
  { intros E. rewrite E in Hmin. discriminate. }
  pose proof (mean_between _ _ _ Hne Hrange) as Havg.
  set (D_avg := Numpy.mean (Numpy.ravel data)) in *.
  pose proof (baseline_overlap_between 25 D_avg (25 / 218) 1
                ltac:(lra) ltac:(lra) ltac:(lra) ltac:(lra) ltac:(lra))
    as Hov.
  set (ov := (1 - 0.9 * (2 * 25 * sqrt 3) / (2 * D_avg * sqrt 3)) * 100)
    in *.
  assert (Hlines : Zceil (4 * 1852 / (0.9 * (2 * 25 * sqrt 3))) = 96%Z).
  { apply Zceil_eq. apply quotient_between; lra. }
  assert (Hbase : PerformanceComparison.calculate_baseline_metrics data 4 5
                  = Returned
                      (PerformanceComparison.mkPerformanceMetrics
                         (96 * 5) 0.100 ov)).
  { rewrite (baseline_metrics_value data 4 5 25 Hmin). now rewrite Hlines. }
  assert (Himp : PerformanceComparison.calculate_improvements
                   (PerformanceComparison.get_hybrid_metrics tt)
                   (PerformanceComparison.mkPerformanceMetrics
                      (96 * 5) 0.100 ov)
                 = Returned
                     [("length"%string, (96 * 5 - 180.0) / (96 * 5) * 100);
                      ("overlap"%string, (ov - 15.0) / ov * 100)]).
  { rewrite improvements_value; simpl; [reflexivity | lra | lra]. }
  eexists. eexists. exists ((ov - 15.0) / ov * 100).
  split.
  { unfold PerformanceComparison.main. cbv zeta. fold data.
    change (snd (fst BathymetrySimulation.generate_bathymetry_data)) with 4.
    change (snd BathymetrySimulation.generate_bathymetry_data) with 5.
    rewrite Hbase. cbn [PerformanceComparison.bind].
    rewrite Himp. reflexivity. }
  cbn [PerformanceComparison.path_length_nm
         PerformanceComparison.gap_percentage
         PerformanceComparison.overlap_percentage].
  split; [reflexivity|]. split; [lra|]. split; [lra|].
  split; [simpl; f_equal; lra|]. split; [reflexivity|].
  assert (Hq : (ov - 15.0) / ov * ov = ov - 15.0) by (field; lra).
  set (q := (ov - 15.0) / ov) in *.
  split; nra.
Qed.

(** ** The swath width and the beam angle *)

(** For a beam half-angle strictly between 0 and 90 degrees the swath
    width has the sign of the depth, grows with the angle at any
    non-negative depth, and at 45 degrees is twice the depth. *)
Theorem swath_width_angle_monotone (d a1 a2 : R) :
  0 < a1 < a2 -> a2 < 90 ->
  (0 <= d ->
   PathOptimization.calculate_swath_width d a1
   <= PathOptimization.calculate_swath_width d a2)
  /\ (0 < d ->
      0 < PathOptimization.calculate_swath_width d a1
      < PathOptimization.calculate_swath_width d a2)
  /\ (d < 0 -> PathOptimization.calculate_swath_width d a1 < 0)
  /\ PathOptimization.calculate_swath_width d 45 = 2 * d.
Proof.
  intros Ha1 Ha2. pose proof PI_RGT_0 as Hpi.
  assert (Htan : tan (Numpy.deg2rad a1) < tan (Numpy.deg2rad a2)).
  { unfold Numpy.deg2rad. apply tan_increasing; nra. }
  pose proof (tan_deg_pos a1 ltac:(lra)) as Hpos.
  unfold PathOptimization.calculate_swath_width.
  split; [intros; nra|]. split; [intros; nra|]. split; [intros; nra|].
  replace (Numpy.deg2rad 45) with (PI / 4)
    by (unfold Numpy.deg2rad; lra).
  rewrite tan_PI4. ring.
Qed.

Lemma swath_width_angle_monotone_witness :
  PathOptimization.calculate_swath_width 25 45 = 2 * 25.
Proof.
  apply (swath_width_angle_monotone 25 30 60); lra.
Defined.

(** ** The terrain-derived swath of [generate_figures.py] *)

Section Terrain.

Import GenerateFigures.

Lemma fold_right_Rmax_ge (a : R) (l : list R) :
  a <= fold_right Rmax a l /\ Forall (fun x => x <= fold_right Rmax a l) l.
Proof.
  induction l as [|b l [IHa IHl]]; simpl; [split; [lra | constructor]|].
  pose proof (Rmax_l b (fold_right Rmax a l)).
  pose proof (Rmax_r b (fold_right Rmax a l)).
  split; [lra|]. constructor; [assumption|].
  eapply Forall_impl; [|exact IHl]. cbv beta. intros x Hx. lra.
Qed.

(** [amax] returns a value that no cell exceeds. *)
Lemma amax_upper (l : list R) (m : R) :
  Numpy.amax l = Some m -> Forall (fun x => x <= m) l.
Proof.
  destruct l as [|a l]; [discriminate|]. simpl. intros [= <-].
  destruct (fold_right_Rmax_ge a l) as [Ha Hl]. now constructor.
Qed.

Lemma int_monotone (x y : R) : x <= y -> (Numpy.int x <= Numpy.int y)%Z.
Proof.
  intros Hxy. unfold Numpy.int.
  destruct (Rle_dec 0 x) as [Hx|Hx]; destruct (Rle_dec 0 y) as [Hy|Hy].
  - now apply Zfloor_le.
  - lra.
  - apply Z.le_trans with 0%Z.
    + apply Zceil_le_of_le. simpl. lra.
    + apply Zfloor_lub. simpl. lra.
  - now apply Zceil_le.
Qed.

Lemma int_nonpos (x : R) : x <= 0 -> (Numpy.int x <= 0)%Z.
Proof.
  intros Hx. replace 0%Z with (Numpy.int 0).
  - now apply int_monotone.
  - unfold Numpy.int. destruct (Rle_dec 0 0); [|lra]. exact (ZfloorZ 0).
Qed.

Lemma int_ge (x : R) (z : Z) : (0 <= z)%Z -> IZR z <= x -> (z <= Numpy.int x)%Z.
Proof.
  intros Hz Hx. unfold Numpy.int.
  assert (0 <= IZR z) by (apply IZR_le; lia).
  destruct (Rle_dec 0 x); [now apply Zfloor_lub | lra].
Qed.

Lemma row_in_range (i : Z) (a : array2) :
  (0 <= i < Z.of_nat (List.length a))%Z ->
  exists cells, Numpy.row i a = Some cells /\ In cells a
                /\ nth_error a (Z.to_nat i) = Some cells.
Proof.
  intros Hi. unfold Numpy.row.
  destruct (Z.leb_spec 0 i); [|lia].
  destruct (nth_error a (Z.to_nat i)) as [cells|] eqn:E.
  - exists cells. split; [reflexivity|]. split; [|reflexivity].
    eapply nth_error_In; eassumption.
  - apply nth_error_None in E. lia.
Qed.

Variables (X_nm Y_nm Z_m : array2) (height_nm : R).
Hypothesis Hheight : Numpy.amax (Numpy.ravel Y_nm) = Some height_nm.
Hypothesis Hnonzero : height_nm <> 0.
Hypothesis Hrows : Z_m <> [].

Local Abbreviation last_index := (Z.of_nat (List.length Z_m) - 1)%Z.

(** The row the function reads. *)
Lemma terrain_swath_value (y : R) :
  let i := Numpy.clip_int (Numpy.int (y / 1000.0 * IZR last_index))
             0 last_index in
  (0 <= i <= last_index)%Z
  /\ exists cells,
       nth_error Z_m (Z.to_nat i) = Some cells
       /\ get_swath_width_from_terrain y (X_nm, Y_nm, Z_m)
          = Returned (4.0 * Numpy.mean cells).
Proof.
  cbv zeta.
  assert (Hn : (1 <= Z.of_nat (List.length Z_m))%Z).
  { destruct Z_m; [congruence | simpl List.length; lia]. }
  set (i := Numpy.clip_int _ 0 last_index).
  assert (Hi : (0 <= i <= last_index)%Z)
    by (unfold i, Numpy.clip_int; lia).
  split; [exact Hi|].
  destruct (row_in_range i Z_m ltac:(lia)) as (cells & Hrow & _ & Hnth).
  exists cells. split; [exact Hnth|].
  unfold get_swath_width_from_terrain. cbn [fst snd]. rewrite Hheight.
  destruct (Req_dec_T height_nm 0); [contradiction|].
  replace (y / 1000.0 * height_nm / height_nm) with (y / 1000.0)
    by (field; lra).
  fold i. now rewrite Hrow.
Qed.

Lemma terrain_swath_profile (lo hi : R) :
  all_cells (fun z => lo <= z <= hi) Z_m ->
  Forall (fun cells : list R => cells <> []) Z_m ->
  (forall y, exists w i cells,
      get_swath_width_from_terrain y (X_nm, Y_nm, Z_m) = Returned w
      /\ (i < List.length Z_m)%nat
      /\ nth_error Z_m i = Some cells
      /\ w = 4 * Numpy.mean cells
      /\ 4 * lo <= w <= 4 * hi
      /\ (y <= 0 -> i = 0%nat)
      /\ (1000 <= y -> i = (List.length Z_m - 1)%nat))
  /\ (forall y1 y2, y1 <= y2 ->
      (Numpy.clip_int (Numpy.int (y1 / 1000.0 * IZR last_index))
         0 last_index
       <= Numpy.clip_int (Numpy.int (y2 / 1000.0 * IZR last_index))
            0 last_index)%Z).
Proof.
  intros Hall Hne.
  assert (Hn : (1 <= Z.of_nat (List.length Z_m))%Z).
  { destruct Z_m; [congruence | simpl List.length; lia]. }
  assert (Hlast : 0 <= IZR last_index) by (apply IZR_le; lia).
  split.
  - intros y.
    destruct (terrain_swath_value y) as (Hi & cells & Hnth & Hrun).
    cbv zeta in Hi, Hnth, Hrun.
    set (i := Numpy.clip_int _ 0 last_index) in *.
    exists (4.0 * Numpy.mean cells), (Z.to_nat i), cells.
    split; [exact Hrun|]. split; [lia|]. split; [exact Hnth|].
    split; [lra|].
    assert (Hin : In cells Z_m) by (eapply nth_error_In; eassumption).
    unfold all_cells in Hall. rewrite Forall_forall in Hall, Hne.
    pose proof (mean_between lo hi cells (Hne _ Hin) (Hall _ Hin)) as Hm.
    split; [lra|]. split.
    + intros Hy.
      assert (Hint : (Numpy.int (y / 1000.0 * IZR last_index) <= 0)%Z).
      { apply int_nonpos. nra. }
      unfold i, Numpy.clip_int. lia.
    + intros Hy.
      assert (Hint : (last_index
                      <= Numpy.int (y / 1000.0 * IZR last_index))%Z).
      { apply int_ge; [lia | nra]. }
      unfold i, Numpy.clip_int. lia.
  - intros y1 y2 Hy.
    assert (Hint : (Numpy.int (y1 / 1000.0 * IZR last_index)
                    <= Numpy.int (y2 / 1000.0 * IZR last_index))%Z).
    { apply int_monotone. nra. }
    unfold Numpy.clip_int. lia.
Qed.

(** On a terrain with rows that are not empty, a non-zero height and
    depths within [lo, hi], the function returns for every position,
    never indexes outside the grid, and its result is four times the
    mean depth of the row it selects, hence within [4 lo, 4 hi].  A
    position of at most 0 selects the first row, a position of at least
    1000 the last, and a larger position never selects an earlier
    row. *)
Theorem terrain_swath_bounds (lo hi : R) :
  all_cells (fun z => lo <= z <= hi) Z_m ->
  Forall (fun cells : list R => cells <> []) Z_m ->
  (forall y, exists w i cells,
      get_swath_width_from_terrain y (X_nm, Y_nm, Z_m) = Returned w
      /\ (i < List.length Z_m)%nat
      /\ nth_error Z_m i = Some cells
      /\ w = 4 * Numpy.mean cells
      /\ 4 * lo <= w <= 4 * hi
      /\ (y <= 0 -> i = 0%nat)
      /\ (1000 <= y -> i = (List.length Z_m - 1)%nat))
  /\ (forall y1 y2, y1 <= y2 ->
      (Numpy.clip_int (Numpy.int (y1 / 1000.0 * IZR last_index))
         0 last_index
       <= Numpy.clip_int (Numpy.int (y2 / 1000.0 * IZR last_index))
            0 last_index)%Z).
Proof. exact (terrain_swath_profile lo hi). Qed.

End Terrain.

(** [get_swath_width_from_terrain] raises when [Y] has no cell, when the
    largest cell of [Y] is zero, and when [Z] has no row. *)
Theorem terrain_swath_raises (y : R) (X_nm Y_nm Z_m : array2) :
  (Numpy.ravel Y_nm = [] ->
   GenerateFigures.get_swath_width_from_terrain y (X_nm, Y_nm, Z_m) = Raised)
  /\ (Numpy.amax (Numpy.ravel Y_nm) = Some 0 ->
      GenerateFigures.get_swath_width_from_terrain y (X_nm, Y_nm, Z_m)
      = Raised)
  /\ (Z_m = [] ->
      GenerateFigures.get_swath_width_from_terrain y (X_nm, Y_nm, Z_m)
      = Raised).
Proof.
  unfold GenerateFigures.get_swath_width_from_terrain. cbn [fst snd].
  split; [|split].
  - intros ->. reflexivity.
  - intros ->. destruct (Req_dec_T 0 0) as [_|H]; [reflexivity | now elim H].
  - intros ->. destruct (Numpy.amax (Numpy.ravel Y_nm)); [|reflexivity].
    destruct (Req_dec_T r 0); [reflexivity|].
    unfold Numpy.row, Numpy.clip_int. simpl List.length.
    destruct (Z.leb_spec 0 (Z.min (Z.max
       (Numpy.int (y / 1000.0 * r / r * IZR (Z.of_nat 0 - 1))) 0)
       (Z.of_nat 0 - 1))); [lia|].
    destruct (Z.leb_spec 0 (Z.of_nat 0 + Z.min (Z.max
       (Numpy.int (y / 1000.0 * r / r * IZR (Z.of_nat 0 - 1))) 0)
       (Z.of_nat 0 - 1))); [lia | reflexivity].
Qed.

(** ** Coverage over a terrain that deepens along the scan axis *)

Section Deepening.

Import Numpy.

Lemma interp_from_ge (xp : list R) :
  forall fp x0 y0 x,
    StronglySorted Rle (y0 :: fp) -> x0 <= x ->
    y0 <= interp_from x x0 y0 xp fp.
Proof.
  induction xp as [|x1 xp IH]; intros fp x0 y0 x Hs Hx; [simpl; lra|].
  destruct fp as [|y1 fp]; [simpl; lra|].
  inversion Hs as [|? ? Hs' Hall]; subst.
  inversion Hall as [|? ? Hy1 _]; subst.
  simpl. destruct (Rlt_dec x x1) as [Hlt|Hge].
  - pose proof (segment_between y0 y1 x x0 x1 y0 y1 Hx Hlt
                  ltac:(lra) ltac:(lra)). lra.
  - specialize (IH fp x1 y1 x Hs' ltac:(lra)). lra.
Qed.

Lemma interp_from_mono (xp : list R) :
  forall fp x0 y0 x x',
    StronglySorted Rle (y0 :: fp) -> x0 <= x -> x <= x' ->
    interp_from x x0 y0 xp fp <= interp_from x' x0 y0 xp fp.
Proof.
  induction xp as [|x1 xp IH]; intros fp x0 y0 x x' Hs Hx Hxx';
    [simpl; lra|].
  destruct fp as [|y1 fp]; [simpl; lra|].
  inversion Hs as [|? ? Hs' Hall]; subst.
  inversion Hall as [|? ? Hy1 _]; subst.
  simpl. destruct (Rlt_dec x x1) as [Hlt|Hge];
    destruct (Rlt_dec x' x1) as [Hlt'|Hge'].
  - assert (Hd : 0 < x1 - x0) by lra.
    assert (Hslope : 0 <= (y1 - y0) / (x1 - x0))
      by (apply Rle_mult_inv_pos; lra).
    nra.
  - pose proof (segment_between y0 y1 x x0 x1 y0 y1 Hx Hlt
                  ltac:(lra) ltac:(lra)).
    pose proof (interp_from_ge xp fp x1 y1 x' Hs' ltac:(lra)). lra.
  - lra.
  - apply IH; [assumption | lra | assumption].
Qed.

(** Over ordinates that do not decrease, the interpolant does not
    decrease, and is nowhere below the first ordinate. *)
Lemma interp_mono (xp fp : list R) (x x' v v' : R) :
  StronglySorted Rle fp -> x <= x' ->
  interp x xp fp = Some v -> interp x' xp fp = Some v' -> v <= v'.
Proof.
  intros Hs Hxx'. unfold interp.
  destruct (negb (Nat.eqb (List.length xp) (List.length fp)));
    [discriminate|].
  destruct xp as [|x0 xp]; [discriminate|].
  destruct fp as [|y0 fp]; [discriminate|].
  intros [= <-] [= <-].
  destruct (Rlt_dec x x0) as [Hlt|Hge];
    destruct (Rlt_dec x' x0) as [Hlt'|Hge'].
  - lra.
  - apply interp_from_ge; [assumption | lra].
  - lra.
  - apply interp_from_mono; [assumption | lra | assumption].
Qed.

Lemma interp_ge_first (xp fp : list R) (y0 x v : R) :
  StronglySorted Rle (y0 :: fp) ->
  interp x xp (y0 :: fp) = Some v -> y0 <= v.
Proof.
  intros Hs. unfold interp.
  destruct (negb (Nat.eqb (List.length xp) (List.length (y0 :: fp))));
    [discriminate|].
  destruct xp as [|x0 xp]; [discriminate|].
  intros [= <-].
  destruct (Rlt_dec x x0); [lra|].
  apply interp_from_ge; [assumption | lra].
Qed.

End Deepening.

Section DeepeningCoverage.

Import PathOptimization.

Variables (x_coords top : list R) (W f : R).
Hypothesis Hsorted : StronglySorted Rle top.
Hypothesis Hnonneg : Forall (fun d => 0 <= d) top.
Hypothesis Hf : 0 <= f <= 1.

Lemma half_swath_advance (x s : R) :
  advance x_coords top f x = Some s ->
  exists h, half_swath_nm x_coords top x = Some h
            /\ 0 <= h /\ s = 2 * h * f.
Proof.
  unfold advance, half_swath_nm.
  destruct (Numpy.interp x x_coords top) as [v|] eqn:Hv; [|discriminate].
  intros [= <-]. eexists; split; [reflexivity|].
  pose proof (interp_nonneg _ _ _ _ Hnonneg Hv) as Hv0.
  pose proof (swath_default_nonneg v Hv0) as Hsw.
  unfold default_beam_angle_deg in Hsw. split; lra.
Qed.

Lemma half_swath_mono (x x' h h' : R) :
  x <= x' ->
  half_swath_nm x_coords top x = Some h ->
  half_swath_nm x_coords top x' = Some h' -> h <= h'.
Proof.
  unfold half_swath_nm. intros Hxx'.
  destruct (Numpy.interp x x_coords top) as [v|] eqn:Hv; [|discriminate].
  destruct (Numpy.interp x' x_coords top) as [v'|] eqn:Hv'; [|discriminate].
  intros [= <-] [= <-].
  pose proof (interp_mono _ _ _ _ _ _ Hsorted Hxx' Hv Hv') as Hle.
  pose proof (swath_default_le v v' Hle) as Hsw.
  unfold default_beam_angle_deg in Hsw. lra.
Qed.

(** The footprints of a returned list leave no gap between the left
    edge of the first and the right edge of the last. *)
Lemma loop_footprints_chain :
  forall n x l, track_loop n x_coords top W f x [] = Returned l ->
  forall h0 hl p,
    half_swath_nm x_coords top x = Some h0 ->
    half_swath_nm x_coords top (last l 0) = Some hl ->
    l <> [] -> x - h0 <= p <= last l 0 + hl ->
    covered x_coords top l p.
Proof.
  induction n as [|n IH]; intros x l Hl h0 hl p Hh0 Hhl Hne Hp;
    [discriminate|].
  destruct (loop_returned_inv _ _ _ _ _ _ _ Hl)
    as [[_ ->]|(Hx & m & s & l' & [= ->] & Hs & Hl' & ->)];
    [congruence|].
  destruct (half_swath_advance x s Hs) as (h & Hh & Hh_pos & Hsh).
  rewrite Hh0 in Hh. injection Hh as <-.
  destruct (Rle_dec p (x + h0)) as [Hle|Hgt].
  - exists x. split; [now left|]. unfold in_footprint. rewrite Hh0. lra.
  - destruct (loop_returned_inv _ _ _ _ _ _ _ Hl')
      as [[_ ->]|(Hx' & _ & s' & l'' & _ & Hs' & _ & ->)].
    + simpl in Hhl, Hp. rewrite Hh0 in Hhl. injection Hhl as <-. lra.
    + destruct (half_swath_advance (x + s) s' Hs')
        as (h1 & Hh1 & _ & _).
      assert (Hmono : h0 <= h1).
      { apply (half_swath_mono x (x + s)); [nra | assumption..]. }
      destruct (IH _ _ Hl' h1 hl p Hh1) as (y & Hin & Hfoot).
      * exact Hhl.
      * discriminate.
      * change (last (x :: x + s :: l'') 0) with (last (x + s :: l'') 0)
          in Hp. nra.
      * exists y. split; [now right | assumption].
Qed.

End DeepeningCoverage.

Lemma deepening_covered (X Y bathymetry_data : array2)
    (x_coords top : list R) (W f : R) :
  scan_axis X bathymetry_data x_coords top ->
  StronglySorted Rle top -> Forall (fun d => 0 < d) top ->
  0 < f <= 1 ->
  exists fuel l,
    PathOptimization.optimize_track_positions fuel X Y bathymetry_data W f
    = Returned l
    /\ forall hl p,
         l <> [] ->
         half_swath_nm x_coords top (last l 0) = Some hl ->
         0 <= p <= last l 0 + hl ->
         covered x_coords top l p.
Proof.
  intros Hax Hs Hpos Hf.
  destruct (positive_edge_returns X Y bathymetry_data x_coords top W f
              Hax Hpos ltac:(lra)) as (n & l & Hl & _).
  exists n, l. split; [assumption|].
  intros hl p Hne Hhl Hp.
  destruct (scan_axis_corner _ _ _ _ Hax) as (d0 & r & Htop & Hc).
  rewrite (optimize_unfold _ _ _ _ _ _ _ _ _ Hc (axis_row _ _ _ _ Hax)
             (axis_top _ _ _ _ Hax)) in Hl.
  assert (Hnonneg : Forall (fun d => 0 <= d) top).
  { eapply Forall_impl; [|exact Hpos]. cbv beta. intros d Hd. lra. }
  destruct (interp_positive x_coords top (axis_length _ _ _ _ Hax)
              (axis_nonempty _ _ _ _ Hax) Hpos) as (m & _ & Hm).
  destruct (Hm (PathOptimization.first_x d0)) as (v & Hv & _).
  assert (Hd0v : d0 <= v).
  { rewrite Htop in Hv, Hs. exact (interp_ge_first _ _ _ _ _ Hs Hv). }
  pose proof (swath_default_le d0 v Hd0v) as Hsw.
  unfold PathOptimization.default_beam_angle_deg in Hsw.
  apply (loop_footprints_chain x_coords top W f Hs Hnonneg ltac:(lra)
           _ _ _ Hl
           (0.5 * PathOptimization.calculate_swath_width v 60 / 1852)
           hl p).
  - unfold half_swath_nm. now rewrite Hv.
  - exact Hhl.
  - exact Hne.
  - unfold PathOptimization.first_x,
      PathOptimization.default_beam_angle_deg, PathOptimization.NM_TO_M.
    lra.
Qed.

(** On a grid whose reference-edge depths are positive and do not
    decrease along an increasing scan axis, with a spacing factor in
    [(0, 1]], the call returns a list whose footprints leave no gap:
    every point from 0 to the right edge of the last track's footprint
    lies in some footprint.  With a spacing factor of at most one half
    and a first cursor below [W + 1e-6], this is all of [[0, W]]. *)
Theorem deepening_terrain_covered (X Y bathymetry_data : array2)
    (x_coords top : list R) (W f d0 : R) :
  scan_axis X bathymetry_data x_coords top ->
  PathOptimization.corner bathymetry_data = Some d0 ->
  StronglySorted Rle top -> Forall (fun d => 0 < d) top ->
  0 < f <= 1 ->
  exists fuel l,
    PathOptimization.optimize_track_positions fuel X Y bathymetry_data W f
    = Returned l
    /\ (forall hl p,
          l <> [] ->
          half_swath_nm x_coords top (last l 0) = Some hl ->
          0 <= p <= last l 0 + hl ->
          covered x_coords top l p)
    /\ (f <= 0.5 -> PathOptimization.first_x d0 < W + 1e-6 ->
        forall p, 0 <= p <= W -> covered x_coords top l p).
Proof.
  intros Hax Hc Hs Hpos Hf.
  destruct (deepening_covered X Y bathymetry_data x_coords top W f
              Hax Hs Hpos Hf) as (n & l & Hl & Hcov).
  exists n, l. split; [assumption|]. split; [exact Hcov|].
  intros Hhalf Hx0 p Hp.
  assert (Hnonneg : Forall (fun d => 0 <= d) top).
  { eapply Forall_impl; [|exact Hpos]. cbv beta. intros d Hd. lra. }
  pose proof Hl as Hloop.
  rewrite (optimize_unfold _ _ _ _ _ _ _ _ _ Hc (axis_row _ _ _ _ Hax)
             (axis_top _ _ _ _ Hax)) in Hloop.
  destruct (loop_head _ _ _ _ _ _ _ Hloop Hx0) as (l' & El).
  assert (Hne : l <> []) by (rewrite El; discriminate).
  destruct (proj2 (loop_spaced _ _ _ _ _ _ _ Hloop) Hne)
    as (s & Hs' & Hreach).
  destruct (half_swath_advance x_coords top f Hnonneg _ _ Hs')
    as (h & Hh & Hh0 & Hsh).
  apply (Hcov h p Hne Hh). nra.
Qed.

(** ** The further properties at concrete grids *)

(** A flat grid of depth [unit_depth] over a four-mile region: four
    tracks, one footprint of one nautical mile each. *)
Lemma unit_grid_run :
  PathOptimization.optimize_track_positions 5
    [[0; 4]] [[0; 0]] [[1 * unit_depth; 1 * unit_depth]] 4 1.02
  = Returned [0.5; 1.52; 2.54; 3.56].
Proof.
  erewrite optimize_unfold by reflexivity.
  rewrite first_x_unit.
  do 4 (rewrite track_loop_unfold; decide_Rlt;
        rewrite (advance_unit _ _ _ _ 1)
          by (unfold Numpy.interp; simpl; decide_Rlt;
              f_equal; field; lra)).
  rewrite track_loop_unfold; decide_Rlt.
  simpl. repeat (f_equal; try lra).
Qed.

Lemma track_positions_within_region_witness :
  Forall (fun x => x < 4 + 1e-6) [0.5; 1.52; 2.54; 3.56].
Proof.
  apply (track_positions_within_region
           [[0; 4]] [[0; 0]] [[1 * unit_depth; 1 * unit_depth]]
           [0; 4] [1 * unit_depth; 1 * unit_depth] 4 1.02
           (1 * unit_depth) eq_refl eq_refl eq_refl 5).
  exact unit_grid_run.
Defined.


Lemma optimize_track_positions_raises_witness :
  PathOptimization.optimize_track_positions 1
    [[0; 2; 4]] [[0; 0; 0]] [[25; 175]] 4 1.02
  = Raised.
Proof.
  apply (optimize_track_positions_raises
           [[0; 2; 4]] [[0; 0; 0]] [[25; 175]] [0; 2; 4] [25; 175]
           4 1.02 25 eq_refl eq_refl eq_refl 0).
  - simpl. lia.
  - rewrite first_x_25. pose proof sqrt3_bounds. lra.
Defined.

Lemma track_count_bounds_witness :
  exists fuel l,
    PathOptimization.optimize_track_positions fuel
      [[0; 4]] [[0; 0]] [[25; 175]] 4 1.02 = Returned l
    /\ (Zceil ((4 + 1e-6 - PathOptimization.first_x 25) / step 175 1.02)
        <= Z.of_nat (List.length l)
        <= Z.max 0
             (Zceil ((4 + 1e-6 - PathOptimization.first_x 25)
                     / step 25 1.02)))%Z.
Proof.
  apply (track_count_bounds
           [[0; 4]] [[0; 0]] [[25; 175]] [0; 4] [25; 175] 4 1.02
           25 25 175).
  - exact sloping_scan_axis.
  - reflexivity.
  - repeat constructor; lra.
  - lra.
  - lra.
Defined.

Lemma deepening_terrain_covered_witness :
  exists fuel l,
    PathOptimization.optimize_track_positions fuel
      [[0; 4]] [[0; 0]] [[25; 175]] 4 1 = Returned l
    /\ (forall hl p,
          l <> [] ->
          half_swath_nm [0; 4] [25; 175] (last l 0) = Some hl ->
          0 <= p <= last l 0 + hl ->
          covered [0; 4] [25; 175] l p).
Proof.
  destruct (deepening_terrain_covered
              [[0; 4]] [[0; 0]] [[25; 175]] [0; 4] [25; 175] 4 1 25)
    as (fuel & l & Hl & Hcov & _).
  - exact sloping_scan_axis.
  - reflexivity.
  - repeat constructor; lra.
  - repeat constructor; lra.
  - lra.
  - exists fuel, l. now split.
Defined.

Lemma baseline_metrics_bounds_witness :
  exists D_min m n,
    Numpy.amin (Numpy.ravel [[25; 175]]) = Some D_min
    /\ PerformanceComparison.calculate_baseline_metrics [[25; 175]] 4 5
       = Returned m
    /\ PerformanceComparison.gap_percentage m = 0.1
    /\ 10 <= PerformanceComparison.overlap_percentage m < 100
    /\ PerformanceComparison.path_length_nm m = IZR n * 5
    /\ (1 <= n)%Z
    /\ IZR (n - 1)
       * (0.9 * PerformanceComparison.calculate_swath_width D_min 60.0)
       < 4 * 1852
       <= IZR n
          * (0.9 * PerformanceComparison.calculate_swath_width D_min 60.0).
Proof.
  apply (baseline_metrics_bounds [[25; 175]] 4 5).
  - repeat constructor; lra.
  - discriminate.
  - lra.
Defined.

Lemma terrain_swath_bounds_witness :
  exists w i cells,
    GenerateFigures.get_swath_width_from_terrain 1000
      ([[0; 4]; [0; 4]], [[5]], [[10; 20]; [30; 40]])
    = Returned w
    /\ (i < 2)%nat
    /\ nth_error [[10; 20]; [30; 40]] i = Some cells
    /\ w = 4 * Numpy.mean cells
    /\ 4 * 10 <= w <= 4 * 40
    /\ (1000 <= 0 -> i = 0%nat)
    /\ (1000 <= 1000 -> i = 1%nat).
Proof.
  apply (terrain_swath_bounds
           [[0; 4]; [0; 4]] [[5]] [[10; 20]; [30; 40]] 5).
  - reflexivity.
  - lra.
  - discriminate.
  - repeat constructor; lra.
  - repeat constructor; discriminate.
Defined.

(** ** The terrain swath on the grid of [generate_figures.py] *)

Lemma amax_some (l : list R) : l <> [] -> exists m, Numpy.amax l = Some m.
Proof. destruct l; [congruence | intros _; eexists; reflexivity]. Qed.

Lemma mesh_Y_contains (x y : list R) (b : R) :
  x <> [] -> In b y -> In b (Numpy.ravel (snd (Numpy.meshgrid x y))).
Proof.
  intros Hx Hb. unfold Numpy.ravel, Numpy.meshgrid. cbn [snd].
  apply in_concat. exists (map (fun _ => b) x). split.
  - apply in_map_iff. now exists b.
  - destruct x as [|a x]; [congruence | now left].
Qed.

(** For every position the function returns on the generated terrain,
    with a swath width between 0 and 1200. *)
Theorem terrain_swath_on_generated_grid (y : R) :
  exists w,
    GenerateFigures.get_swath_width_from_terrain y
      GenerateFigures.generate_bathymetry_data
    = Returned w
    /\ 0 <= w <= 1200.
Proof.
  unfold GenerateFigures.generate_bathymetry_data. cbv zeta.
  set (xs := Numpy.linspace 0 4.0 400).
  set (ys := Numpy.linspace 0 5.0 500).
  set (Zraw := BathymetrySimulation.array_map2
                 (GenerateFigures.raw_cell 4.0 5.0)
                 (fst (Numpy.meshgrid xs ys)) (snd (Numpy.meshgrid xs ys))).
  set (Z_m := map (map (fun z => Numpy.clip z 0 300)) Zraw).
  pose proof (mesh_shape (GenerateFigures.raw_cell 4.0 5.0) xs ys)
    as Hshape.
  cbv zeta in Hshape. fold Zraw in Hshape.
  assert (Hlx : List.length xs = 400%nat) by apply linspace_length.
  assert (Hly : List.length ys = 500%nat) by apply linspace_length.
  rewrite Hlx, Hly in Hshape.
  destruct Hshape as [Hrows Hcols].
  assert (Hxs : xs <> []).
  { intros E. rewrite E in Hlx. discriminate. }
  set (top_y := 0 + INR 499 * ((5.0 - 0) / INR (500 - 1))).
  assert (Htop_in : In top_y ys).
  { unfold ys, Numpy.linspace. apply in_map_iff. exists 499%nat.
    split; [reflexivity | apply in_seq; lia]. }
  assert (Htop_pos : 0 < top_y).
  { unfold top_y.
    assert (0 < INR 499) by (apply lt_0_INR; lia).
    assert (0 < INR (500 - 1)) by (apply lt_0_INR; lia).
    assert (0 < (5.0 - 0) / INR (500 - 1))
      by (apply Rdiv_lt_0_compat; lra).
    nra. }
  pose proof (mesh_Y_contains xs ys top_y Hxs Htop_in) as HinY.
  destruct (amax_some (Numpy.ravel (snd (Numpy.meshgrid xs ys))))
    as (height & Hheight).
  { intros E. rewrite E in HinY. contradiction. }
  pose proof (amax_upper _ _ Hheight) as Hup.
  rewrite Forall_forall in Hup. specialize (Hup _ HinY).
  assert (HZne : Z_m <> []).
  { intros E. apply (f_equal (@List.length (list R))) in E.
    unfold Z_m in E. rewrite length_map, Hrows in E. discriminate. }
  assert (Hall : all_cells (fun z => 0 <= z <= 300) Z_m).
  { unfold all_cells, Z_m. apply Forall_forall. intros row Hrow.
    apply in_map_iff in Hrow. destruct Hrow as (raw & <- & _).
    apply Forall_forall. intros z Hz.
    apply in_map_iff in Hz. destruct Hz as (r & <- & _).
    apply clip_range. lra. }
  assert (Hne : Forall (fun cells : list R => cells <> []) Z_m).
  { unfold Z_m. apply Forall_forall. intros row Hrow.
    apply in_map_iff in Hrow. destruct Hrow as (raw & <- & Hraw).
    rewrite Forall_forall in Hcols. specialize (Hcols _ Hraw).
    intros E. apply (f_equal (@List.length R)) in E.
    rewrite length_map, Hcols in E. discriminate. }
  destruct (terrain_swath_profile (fst (Numpy.meshgrid xs ys))
              (snd (Numpy.meshgrid xs ys)) Z_m height Hheight
              ltac:(lra) HZne 0 300 Hall Hne) as [Hret _].
  destruct (Hret y) as (w & i & cells & Hrun & _ & _ & _ & Hw & _).
  exists w. split; [exact Hrun | lra].
Qed.

(** ** What the placement reads *)

Lemma corner_of_row0 (a : array2) :
  PathOptimization.corner a
  = match PathOptimization.row0 a with
    | Some (d :: _) => Some d
    | _ => None
    end.
Proof. destruct a as [|[|d r] a]; reflexivity. Qed.

(** The placement reads only the first row of [X] and the first row of
    the depth grid: two calls whose grids agree on these rows have the
    same outcome, whatever [Y] and the other rows are. *)
Theorem placement_reads_first_rows_only
    (fuel : nat) (X X' Y Y' data data' : array2) (W f : R) :
  PathOptimization.row0 X = PathOptimization.row0 X' ->
  PathOptimization.row0 data = PathOptimization.row0 data' ->
  PathOptimization.optimize_track_positions fuel X Y data W f
  = PathOptimization.optimize_track_positions fuel X' Y' data' W f.
Proof.
  intros HX Hd. unfold PathOptimization.optimize_track_positions.
  now rewrite !corner_of_row0, HX, Hd.
Qed.

Lemma placement_reads_first_rows_only_witness :
  PathOptimization.optimize_track_positions 5
    [[0; 4]; [7; 7]] [[1; 1]; [2; 2]]
    [[1 * unit_depth; 1 * unit_depth]; [-3; 0]] 4 1.02
  = PathOptimization.optimize_track_positions 5
      [[0; 4]] [[0; 0]] [[1 * unit_depth; 1 * unit_depth]] 4 1.02.
Proof.
  apply (placement_reads_first_rows_only 5
           [[0; 4]; [7; 7]] [[0; 4]] [[1; 1]; [2; 2]] [[0; 0]]
           [[1 * unit_depth; 1 * unit_depth]; [-3; 0]]
           [[1 * unit_depth; 1 * unit_depth]] 4 1.02);
    reflexivity.
Defined.
